(** * TimeEditAPI: the event pipeline of the KTH TimeEdit client

    A shallow embedding of the class [TimeEditAPI] (TypeScript): the
    constructor, the mapping of reservation rows to events in
    [getCourseEvents], the three filter predicates, [getKTHLocationURL],
    and the JavaScript operations they rest on.

    Conventions.
    - A JavaScript string is a sequence of UTF-16 code units.  The model
      keeps the code units below 256, one [ascii] each; the section sign
      is U+00A7, the single unit 167.
    - The body returned by [response.json()] is a [JValue]; numbers of
      the feed are kept as integers, below 10^21 in absolute value (from
      there on JavaScript prints a number in exponent form).
    - A thrown exception is the result [Throw]; every exception of this
      code is a [TypeError].
    - luxon is a dependency: its parsers [DateTime.fromISO] and
      [DateTime.fromSQL] are section variables, and a [DateTime] carries
      what the program reads from it (validity, time stamp, year, month).
    - [DateTime.now()] is the argument [now] of the functions reading the
      clock. *)

From Stdlib Require Import ZArith List String Ascii Bool Lia DecimalString.
Import ListNotations.

Set Warnings "-register-all".

Local Open Scope string_scope.
Local Open Scope Z_scope.

(** ** Results of computations that may throw *)

Inductive JSError : Type := TypeError.

Inductive Result (A : Type) : Type :=
| Ok (a : A)
| Throw (e : JSError).

Arguments Ok {A} a.
Arguments Throw {A} e.

Definition bind {A B : Type} (m : Result A) (f : A -> Result B) : Result B :=
  match m with
  | Ok a => f a
  | Throw e => Throw e
  end.

Notation "x <- m ;; k" := (bind m (fun x => k))
  (at level 61, m at next level, right associativity).

(** ** JavaScript values coming out of [JSON.parse], and [undefined]

    An object is the list of its own properties, one binding per key, as
    [JSON.parse] leaves it. *)

Inductive JValue : Type :=
| JUndefined
| JNull
| JBool (b : bool)
| JNum (z : Z)
| JStr (s : string)
| JArr (l : list JValue)
| JObj (kvs : list (string * JValue)).

(** ** Strings *)

Module JSString.

(** The section sign, U+00A7. *)
Definition section_sign : string := String (ascii_of_nat 167) EmptyString.

Fixpoint drop (n : nat) (s : string) : string :=
  match n, s with
  | O, _ => s
  | S k, String _ r => drop k r
  | S _, EmptyString => EmptyString
  end.

(** [includes pat s]: [s.includes(pat)]. *)
Fixpoint includes (pat s : string) : bool :=
  if prefix pat s then true
  else match s with
       | EmptyString => false
       | String _ r => includes pat r
       end.

(** [remove_first pat s]: [s.replace(pat, "")] for a string pattern:
    the first occurrence only. *)
Fixpoint remove_first (pat s : string) : string :=
  if prefix pat s then drop (String.length pat) s
  else match s with
       | EmptyString => EmptyString
       | String c r => String c (remove_first pat r)
       end.

(** [split_from sep skip cur s]: the pieces of [s], [cur] being the
    piece under construction and [skip] the number of code units of a
    separator still to pass over. *)
Fixpoint split_from (sep : string) (skip : nat) (cur s : string)
  : list string :=
  match s with
  | EmptyString => [cur]
  | String c r =>
      match skip with
      | S k => split_from sep k cur r
      | O =>
          if prefix sep s
          then cur :: split_from sep (String.length sep - 1) EmptyString r
          else split_from sep 0 (cur ++ String c EmptyString) r
      end
  end.

(** [split sep s]: [s.split(sep)] for a non-empty separator. *)
Definition split (sep s : string) : list string :=
  split_from sep 0 EmptyString s.

End JSString.

(** ** Operations of the language on values *)

Module JS.

Fixpoint lookup (k : string) (kvs : list (string * JValue)) : JValue :=
  match kvs with
  | [] => JUndefined
  | (k', v) :: r => if String.eqb k k' then v else lookup k r
  end.

(** [get v k]: the member access [v.k] for a name [k] that no
    prototype defines ([reservations], [columns], [startdate], ...). *)
Definition get (v : JValue) (k : string) : Result JValue :=
  match v with
  | JUndefined | JNull => Throw TypeError
  | JObj kvs => Ok (lookup k kvs)
  | _ => Ok JUndefined
  end.

Definition decimal (i : nat) : string :=
  NilZero.string_of_uint (Nat.to_uint i).

(** [index v i]: the element access [v[i]]. *)
Definition index (v : JValue) (i : nat) : Result JValue :=
  match v with
  | JUndefined | JNull => Throw TypeError
  | JArr l => Ok (nth i l JUndefined)
  | JObj kvs => Ok (lookup (decimal i) kvs)
  | JStr s =>
      Ok (match String.get i s with
          | Some c => JStr (String c EmptyString)
          | None => JUndefined
          end)
  | _ => Ok JUndefined
  end.

(** [number_to_string z]: the string of the integer [z], for [z] below
    10^21 in absolute value. *)
Definition number_to_string (z : Z) : string :=
  NilZero.string_of_int (Z.to_int z).

Fixpoint has_key (k : string) (kvs : list (string * JValue)) : bool :=
  match kvs with
  | [] => false
  | (k', _) :: r => String.eqb k k' || has_key k r
  end.

(** [converts v]: the conversion of [v] to a primitive completes.  An
    object finds [toString] on its prototype unless it has a property of
    that name of its own, which, coming out of [JSON.parse], is no
    function: then the conversion throws.  An array converts its elements
    other than [null] and [undefined]. *)
Fixpoint converts (v : JValue) : bool :=
  match v with
  | JObj kvs => negb (has_key "toString" kvs)
  | JArr l =>
      (fix all (l : list JValue) : bool :=
         match l with
         | [] => true
         | x :: r => converts x && all r
         end) l
  | _ => true
  end.

(** [to_string v]: the string of [v], for a [v] that converts. *)
Fixpoint to_string (v : JValue) : string :=
  match v with
  | JUndefined => "undefined"
  | JNull => "null"
  | JBool true => "true"
  | JBool false => "false"
  | JNum z => number_to_string z
  | JStr s => s
  | JArr l =>
      let element x :=
        match x with
        | JUndefined | JNull => EmptyString
        | _ => to_string x
        end in
      (fix join (l : list JValue) : string :=
         match l with
         | [] => EmptyString
         | [x] => element x
         | x :: r => element x ++ "," ++ join r
         end) l
  | JObj _ => "[object Object]"
  end.

(** [template v]: the substitution [${v}] of a template literal. *)
Definition template (v : JValue) : Result string :=
  if converts v then Ok (to_string v) else Throw TypeError.

(** [eq_empty_string v]: the value of the loose comparison [v == ''],
    for a [v] that converts. *)
Definition eq_empty_string (v : JValue) : bool :=
  match v with
  | JUndefined | JNull => false
  | JBool b => negb b
  | JNum z => z =? 0
  | JStr s => String.eqb s EmptyString
  | JArr _ | JObj _ => String.eqb (to_string v) EmptyString
  end.

(** [equals_empty_string v]: the loose comparison [v == '']. *)
Definition equals_empty_string (v : JValue) : Result bool :=
  if converts v then Ok (eq_empty_string v) else Throw TypeError.

(** [call_split v sep]: the method call [v.split(sep)]; only a string
    has the method. *)
Definition call_split (v : JValue) (sep : string) : Result (list string) :=
  match v with
  | JStr s => Ok (JSString.split sep s)
  | _ => Throw TypeError
  end.

Section Arrays.
Context {A B : Type}.

Fixpoint map_list (f : A -> Result B) (l : list A) : Result (list B) :=
  match l with
  | [] => Ok []
  | x :: r => y <- f x ;; ys <- map_list f r ;; Ok (y :: ys)
  end.

(** [Array.prototype.filter] with a callback that may throw. *)
Fixpoint filter_list (p : A -> Result bool) (l : list A)
  : Result (list A) :=
  match l with
  | [] => Ok []
  | x :: r =>
      b <- p x ;; ys <- filter_list p r ;;
      Ok (if b then x :: ys else ys)
  end.
End Arrays.

(** [call_map v f]: the method call [v.map(f)]; of the values of a
    JSON body only an array has the method. *)
Definition call_map {B : Type} (v : JValue) (f : JValue -> Result B)
  : Result (list B) :=
  match v with
  | JArr l => map_list f l
  | _ => Throw TypeError
  end.

(** Truthiness of a string-or-null field. *)
Definition truthy (s : option string) : bool :=
  match s with
  | Some s => negb (String.eqb s EmptyString)
  | None => false
  end.

(** Numbers read from a [DateTime]: [None] is [NaN]. *)
Definition Number := option Z.

Definition lt (a b : Number) : bool :=
  match a, b with
  | Some x, Some y => x <? y
  | _, _ => false
  end.

Definition le (a b : Number) : bool :=
  match a, b with
  | Some x, Some y => x <=? y
  | _, _ => false
  end.

(** [array_includes l x]: [l.includes(x)] for an array of numbers
    without [NaN]. *)
Definition array_includes (l : list Z) (x : Number) : bool :=
  match x with
  | Some m => existsb (Z.eqb m) l
  | None => false
  end.

End JS.

(** ** luxon's [DateTime], as far as the program reads it *)

Record DateTimeData : Type := mkDateTimeData {
  ts : Z;        (* epoch milliseconds, the result of [valueOf()] *)
  c_year : Z;    (* calendar year in the local zone *)
  c_month : Z    (* calendar month in the local zone, 1 to 12 *)
}.

Inductive DateTime : Type :=
| Valid (d : DateTimeData)
| Invalid.

Module DateTimeOps.

Definition month (dt : DateTime) : JS.Number :=
  match dt with Valid d => Some (c_month d) | Invalid => None end.

Definition year (dt : DateTime) : JS.Number :=
  match dt with Valid d => Some (c_year d) | Invalid => None end.

Definition valueOf (dt : DateTime) : JS.Number :=
  match dt with Valid d => Some (ts d) | Invalid => None end.

(** [a < b] on two date-times compares their [valueOf()]. *)
Definition lt (a b : DateTime) : bool := JS.lt (valueOf a) (valueOf b).

(** [a.hasSame(b, 'year')] for two date-times of one zone (every
    date-time of this program is in the local zone): both valid and in
    the same calendar year. *)
Definition hasSame_year (a b : DateTime) : bool :=
  match a, b with
  | Valid x, Valid y => c_year x =? c_year y
  | _, _ => false
  end.

End DateTimeOps.

(** ** The data model *)

Record Event : Type := mkEvent {
  startDate : DateTime;
  endDate : DateTime;
  lecturers : list string;
  location : list string;
  type : JValue
}.

(** The fields of a [TimeEditAPI] instance; [None] is [null]. *)
Record TimeEditAPI : Type := mkTimeEditAPI {
  baseUrl : option string;
  filterEmpty : bool;
  filterStartDate : option string;
  filterEndDate : option string;
  filterToSemester : bool;
  useKTHPlaces : bool
}.

(** The object literal handed to the constructor; [None] is a property
    left out. *)
Record Options : Type := mkOptions {
  opt_baseUrl : option string;
  opt_filterEmpty : option bool;
  opt_filterToSemester : option bool;
  opt_startDate : option string;
  opt_endDate : option string;
  opt_useKTHPlaces : option bool
}.

Definition default {A : Type} (d : A) (o : option A) : A :=
  match o with Some a => a | None => d end.

Definition constructor (o : Options) : TimeEditAPI :=
  {| baseUrl := opt_baseUrl o;
     filterEmpty := default false (opt_filterEmpty o);
     filterToSemester := default true (opt_filterToSemester o);
     filterStartDate := opt_startDate o;
     filterEndDate := opt_endDate o;
     useKTHPlaces := default false (opt_useKTHPlaces o) |}.

(** A construction giving the base URL only. *)
Definition only_baseUrl (url : string) : Options :=
  {| opt_baseUrl := Some url;
     opt_filterEmpty := None;
     opt_filterToSemester := None;
     opt_startDate := None;
     opt_endDate := None;
     opt_useKTHPlaces := None |}.

(** A method passed as a value: it receives its [this] from the caller,
    [None] being [undefined]. *)
Definition Method : Type := option TimeEditAPI -> Event -> Result bool.

(** [l.filter(m)]: the callback is called without a [this]. *)
Definition Array_filter (m : Method) (l : list Event) : Result (list Event) :=
  JS.filter_list (m None) l.

(** ** [getKTHLocationURL] *)

Definition KTH_search_prefix : string := "https://www.kth.se/search?q=".

Definition KTH_search_suffix : string :=
  "&entityFilter=kth-place&filterLabel=Facilities&lang=en".

Definition KTH_search_url (locString : string) : string :=
  KTH_search_prefix ++ locString ++ KTH_search_suffix.

Definition getKTHLocationURL (locations : list string) : list string :=
  fold_left
    (fun urls location =>
       let locString :=
         JSString.remove_first JSString.section_sign location in
       (urls ++ [KTH_search_url locString])%list)
    locations [].

(** ** The filter predicates *)

Definition filterEmptyEvents : Method := fun _ event =>
  if (List.length (lecturers event) =? 0)%nat then Ok false
  else if (List.length (location event) =? 0)%nat then Ok false
  else
    empty <- JS.equals_empty_string (type event) ;;
    if empty then Ok false else Ok true.

Definition currentSemester (dt : DateTime) : list Z :=
  if JS.lt (Some 1) (DateTimeOps.month dt)
     && JS.lt (DateTimeOps.month dt) (Some 7)
  then [1; 2; 3; 4; 5; 6]
  else if JS.lt (Some 7) (DateTimeOps.month dt)
          && JS.le (DateTimeOps.month dt) (Some 12)
  then [8; 9; 10; 11; 12]
  else [].

Definition eventInCurrentKTHPeriod (now : DateTime) : Method := fun _ event =>
  let dt := now in
  Ok (JS.array_includes (currentSemester dt)
                         (DateTimeOps.month (startDate event))
      && DateTimeOps.hasSame_year dt (startDate event)).

Section Luxon.

(** [DateTime.fromISO] and [DateTime.fromSQL] on a string. *)
Variable fromISO : string -> DateTime.
Variable fromSQL : string -> DateTime.

(** [DateTime.fromSQL] on a string-or-null field: [null] does not
    parse. *)
Definition fromSQL_field (text : option string) : DateTime :=
  match text with
  | Some s => fromSQL s
  | None => Invalid
  end.

Definition eventBeforeDate : Method := fun this event =>
  match this with
  | None => Throw TypeError
  | Some this =>
      Ok (DateTimeOps.lt (endDate event)
                      (fromSQL_field (filterStartDate this)))
  end.

Definition eventAfterDate : Method := fun this event =>
  match this with
  | None => Throw TypeError
  | Some this =>
      Ok (DateTimeOps.lt (startDate event)
                      (fromSQL_field (filterEndDate this)))
  end.

(** ** [getCourseEvents], from the parsed body on *)

(** The callback of [jsonData.reservations.map]. *)
Definition reservation_to_event (this : TimeEditAPI) (event : JValue)
  : Result Event :=
  startdate <- JS.get event "startdate" ;;
  startdate <- JS.template startdate ;;
  starttime <- JS.get event "starttime" ;;
  starttime <- JS.template starttime ;;
  let startDate := fromISO (startdate ++ "T" ++ starttime) in
  enddate <- JS.get event "enddate" ;;
  enddate <- JS.template enddate ;;
  endtime <- JS.get event "endtime" ;;
  endtime <- JS.template endtime ;;
  let endDate := fromISO (enddate ++ "T" ++ endtime) in
  columns <- JS.get event "columns" ;;
  c3 <- JS.index columns 3 ;;
  lecturers <- JS.call_split c3 ", " ;;
  c4 <- JS.index columns 4 ;;
  places <- JS.call_split c4 ", " ;;
  let location :=
    if useKTHPlaces this then getKTHLocationURL places else places in
  c5 <- JS.index columns 5 ;;
  Ok {| startDate := startDate;
        endDate := endDate;
        lecturers := lecturers;
        location := location;
        type := c5 |}.

Definition getCourseEvents (this : TimeEditAPI) (now : DateTime)
    (jsonData : JValue) : Result (list Event) :=
  reservations <- JS.get jsonData "reservations" ;;
  courseEvents <- JS.call_map reservations (reservation_to_event this) ;;
  courseEvents <-
    (if filterToSemester this
     then Array_filter (eventInCurrentKTHPeriod now) courseEvents
     else Ok courseEvents) ;;
  courseEvents <-
    (if filterEmpty this
     then Array_filter filterEmptyEvents courseEvents
     else Ok courseEvents) ;;
  courseEvents <-
    (if JS.truthy (filterStartDate this)
     then Array_filter eventBeforeDate courseEvents
     else Ok courseEvents) ;;
  Ok courseEvents.

End Luxon.

(** ** The specification's reading of the location resolver

    [stripped s] is [s] with the section sign stripped in the words of the
    specification: no section sign is left in it. *)

Fixpoint stripped (s : string) : string :=
  match s with
  | EmptyString => EmptyString
  | String c r =>
      if Ascii.eqb c (ascii_of_nat 167) then stripped r
      else String c (stripped r)
  end.

(** The number of section signs of a token. *)
Fixpoint section_signs (s : string) : nat :=
  match s with
  | EmptyString => O
  | String c r =>
      ((if Ascii.eqb c (ascii_of_nat 167) then 1 else 0) + section_signs r)%nat
  end.

(** ** Derived notions used in the statements *)

(** The value computed by [eventInCurrentKTHPeriod], which never throws. *)
Definition in_current_period (now : DateTime) (event : Event) : bool :=
  JS.array_includes (currentSemester now) (DateTimeOps.month (startDate event))
  && DateTimeOps.hasSame_year now (startDate event).

(** The last check of [filterEmptyEvents]: the comparison of the type
    with the empty string, negated. *)
Definition type_not_empty (event : Event) : Result bool :=
  empty <- JS.equals_empty_string (type event) ;; Ok (negb empty).

(** [field_converts row k]: the field [k] of [row] can be read and put
    into a template literal. *)
Definition field_converts (row : JValue) (k : string) : bool :=
  match JS.get row k with
  | Ok v => JS.converts v
  | Throw _ => false
  end.

(** The four date and time fields of [row] convert. *)
Definition dates_convert (row : JValue) : bool :=
  field_converts row "startdate" && field_converts row "starttime"
  && field_converts row "enddate" && field_converts row "endtime".

(** The instance with [filterStartDate] reset to [null]. *)
Definition without_startDate (this : TimeEditAPI) : TimeEditAPI :=
  {| baseUrl := baseUrl this;
     filterEmpty := filterEmpty this;
     filterStartDate := None;
     filterEndDate := filterEndDate this;
     filterToSemester := filterToSemester this;
     useKTHPlaces := useKTHPlaces this |}.

(** The semester stage of the pipeline, which never throws. *)
Definition semester_stage (this : TimeEditAPI) (now : DateTime)
    (l : list Event) : list Event :=
  if filterToSemester this then filter (in_current_period now) l else l.

(** The empty-field stage of the pipeline. *)
Definition empty_stage (this : TimeEditAPI) (l : list Event)
  : Result (list Event) :=
  if filterEmpty this then Array_filter filterEmptyEvents l else Ok l.

(** What [p] answers on [x], a throw counting as [false]. *)
Definition answers_true {A : Type} (p : A -> Result bool) (x : A) : bool :=
  match p x with
  | Ok b => b
  | Throw _ => false
  end.

(** A reservation row as the callback of [map] declares it. *)
Record RawReservation : Type := mkRawReservation {
  startdate : string;
  starttime : string;
  enddate : string;
  endtime : string;
  columns : list JValue
}.

(** [row] is an object carrying the fields of [r]. *)
Definition is_reservation (row : JValue) (r : RawReservation) : Prop :=
  JS.get row "startdate" = Ok (JStr (startdate r))
  /\ JS.get row "starttime" = Ok (JStr (starttime r))
  /\ JS.get row "enddate" = Ok (JStr (enddate r))
  /\ JS.get row "endtime" = Ok (JStr (endtime r))
  /\ JS.get row "columns" = Ok (JArr (columns r)).

(** ** Sample inputs *)

(** Stand-ins for the two luxon parsers, on the strings of the samples
    (time stamps taken in UTC). *)
Definition sample_fromISO (text : string) : DateTime :=
  if String.eqb text "2023-12-31T10:00"
  then Valid {| ts := 1704016800000; c_year := 2023; c_month := 12 |}
  else if String.eqb text "2023-12-31T12:00"
  then Valid {| ts := 1704024000000; c_year := 2023; c_month := 12 |}
  else if String.eqb text "2024-04-10T10:00"
  then Valid {| ts := 1712743200000; c_year := 2024; c_month := 4 |}
  else if String.eqb text "2024-04-10T12:00"
  then Valid {| ts := 1712750400000; c_year := 2024; c_month := 4 |}
  else Invalid.

Definition sample_fromSQL (text : string) : DateTime :=
  if String.eqb text "2024-01-01"
  then Valid {| ts := 1704067200000; c_year := 2024; c_month := 1 |}
  else Invalid.

Definition reservation_row (r : RawReservation) : JValue :=
  JObj [("id", JStr "1");
        ("startdate", JStr (startdate r));
        ("starttime", JStr (starttime r));
        ("enddate", JStr (enddate r));
        ("endtime", JStr (endtime r));
        ("columns", JArr (columns r))].

Definition feed (rows : list JValue) : JValue :=
  JObj [("info", JObj [("reservationlimit", JNum 1000)]);
        ("reservations", JArr rows)].

Definition KTH_public : string :=
  "https://cloud.timeedit.net/kth/web/public01/".

(** A lecture on 31 December 2023 with all six columns. *)
Definition new_years_eve : RawReservation :=
  {| startdate := "2023-12-31"; starttime := "10:00";
     enddate := "2023-12-31"; endtime := "12:00";
     columns := [JStr "DD2482"; JStr ""; JStr ""; JStr "A B, C D";
                 JStr "Room1"; JStr "Lecture"] |}.

(** A row in April 2024 whose lecturers column is the empty string. *)
Definition no_lecturer : RawReservation :=
  {| startdate := "2024-04-10"; starttime := "10:00";
     enddate := "2024-04-10"; endtime := "12:00";
     columns := [JStr "DD2482"; JStr ""; JStr ""; JStr "";
                 JStr "Room1"; JStr "Lecture"] |}.

(** A row in April 2024 whose columns stop at position 4. *)
Definition five_columns : RawReservation :=
  {| startdate := "2024-04-10"; starttime := "10:00";
     enddate := "2024-04-10"; endtime := "12:00";
     columns := [JStr "DD2482"; JStr ""; JStr ""; JStr "A B";
                 JStr "Room1"] |}.

(** [new TimeEditAPI({ baseUrl, filterToSemester: false,
    startDate: "2024-01-01" })]. *)
Definition api_startDate : TimeEditAPI :=
  constructor
    {| opt_baseUrl := Some KTH_public;
       opt_filterEmpty := None;
       opt_filterToSemester := Some false;
       opt_startDate := Some "2024-01-01";
       opt_endDate := None;
       opt_useKTHPlaces := None |}.

(** [new TimeEditAPI({ baseUrl, filterEmpty: true })]. *)
Definition api_filterEmpty : TimeEditAPI :=
  constructor
    {| opt_baseUrl := Some KTH_public;
       opt_filterEmpty := Some true;
       opt_filterToSemester := None;
       opt_startDate := None;
       opt_endDate := None;
       opt_useKTHPlaces := None |}.


Definition Room_1_marked : string := JSString.section_sign ++ "Room 1".

Definition twice_marked : string :=
  JSString.section_sign ++ JSString.section_sign ++ "A".

Definition march_2024 : DateTime :=
  Valid {| ts := 1710496800000; c_year := 2024; c_month := 3 |}.

Definition july_2024 : DateTime :=
  Valid {| ts := 1721037600000; c_year := 2024; c_month := 7 |}.

Definition starting (year month : Z) (stamp : Z) : Event :=
  {| startDate := Valid {| ts := stamp; c_year := year; c_month := month |};
     endDate := Valid {| ts := stamp + 7200000; c_year := year;
                         c_month := month |};
     lecturers := ["A"];
     location := ["Room1"];
     type := JStr "Lecture" |}.

(** ** The URL builders *)

(** A string-or-null field as a value. *)
Definition nullable (o : option string) : JValue :=
  match o with Some s => JStr s | None => JNull end.

(** A result that may be [undefined] as a value. *)
Definition optional (o : option string) : JValue :=
  match o with Some s => JStr s | None => JUndefined end.

(** The identifier and the search text are strings, as declared, or the
    [undefined] of a failed lookup: values that convert. *)
Definition getCourseUrl (this : TimeEditAPI) (courseId : JValue) : string :=
  JS.to_string (nullable (baseUrl this))
  ++ "ri.json?h=f&sid=3&p=0.m%2C12.n&objects=" ++ JS.to_string courseId
  ++ "&ox=0&types=0&fe=0&h2=f".

Definition getSearchURL (this : TimeEditAPI) (searchText type : JValue)
  : string :=
  JS.to_string (nullable (baseUrl this))
  ++ "objects.html?max=1&fr=t&partajax=t&im=f&sid=3&search_text="
  ++ JS.to_string searchText ++ "&types=" ++ JS.to_string type.

(** ** The status check *)

(** What the program reads of a response of [fetch]. *)
Record Response : Type := mkResponse {
  ok : bool;
  status : Z;
  statusText : string
}.

Record HTTPResponseError : Type := mkHTTPResponseError {
  message : string;
  response : Response
}.

(** [new HTTPResponseError(res)]. *)
Definition new_HTTPResponseError (res : Response) : HTTPResponseError :=
  {| message :=
       "HTTP Error Response: " ++ JS.number_to_string (status res)
       ++ " " ++ statusText res;
     response := res |}.

(** [checkStatus]: [inl] is the value returned, [inr] the error thrown. *)
Definition checkStatus (res : Response) : Response + HTTPResponseError :=
  if ok res then inl res else inr (new_HTTPResponseError res).

(** ** Asynchronous methods

    An [async] method is a tree of the requests it makes to its
    environment: [fetch], the two body readers of a response, and
    [console.error].  The environment answers an awaited promise with a
    value or breaks it with an error of its own. *)

Inductive Reason : Type :=
| PipelineError (e : JSError)
| Uncaught (e : HTTPResponseError)
| External (msg : string).

Inductive Answer (X : Type) : Type :=
| Gave (x : X)
| Broke (msg : string).

Arguments Gave {X} x.
Arguments Broke {X} msg.

Inductive Outcome (A : Type) : Type :=
| Fulfilled (a : A)
| Rejected (r : Reason).

Arguments Fulfilled {A} a.
Arguments Rejected {A} r.

Inductive LogEntry : Type :=
| LogError (e : HTTPResponseError)
| LogText (s : string).

Inductive Async (A : Type) : Type :=
| Resolve (a : A)
| Reject (r : Reason)
| Forever
| Fetch (url : string) (k : Answer Response -> Async A)
| Text (res : Response) (k : Answer string -> Async A)
| Json (res : Response) (k : Answer JValue -> Async A)
| ConsoleError (entry : LogEntry) (k : Async A).

Arguments Resolve {A} a.
Arguments Reject {A} r.
Arguments Forever {A}.
Arguments Fetch {A} url k.
Arguments Text {A} res k.
Arguments Json {A} res k.
Arguments ConsoleError {A} entry k.

(** [await]: go on with the value, or reject with the error. *)
Definition await {X A : Type} (k : X -> Async A) (a : Answer X) : Async A :=
  match a with
  | Gave x => k x
  | Broke msg => Reject (External msg)
  end.

(** The end of an [async] body whose last expression may throw. *)
Definition settle {A : Type} (r : Result A) : Async A :=
  match r with
  | Ok a => Resolve a
  | Throw e => Reject (PipelineError e)
  end.

Fixpoint and_then {A B : Type} (m : Async A) (f : A -> Async B) : Async B :=
  match m with
  | Resolve a => f a
  | Reject r => Reject r
  | Forever => Forever
  | Fetch url k => Fetch url (fun a => and_then (k a) f)
  | Text res k => Text res (fun a => and_then (k a) f)
  | Json res k => Json res (fun a => and_then (k a) f)
  | ConsoleError entry k => ConsoleError entry (and_then k f)
  end.

(** The [try]/[catch] around [checkStatus], followed by [rest]. *)
Definition checked {A : Type} (res : Response) (rest : Async A) : Async A :=
  match checkStatus res with
  | inl _ => rest
  | inr error =>
      ConsoleError (LogError error)
        (Text (response error)
           (await (fun errorBody =>
                     ConsoleError (LogText ("Error body: " ++ errorBody))
                       rest)))
  end.

(** The document returned by [cheerio.load]. *)
Record CheerioAPI : Type := mkCheerioAPI { html : string }.

Section Methods.

Variable fromISO : string -> DateTime.
Variable fromSQL : string -> DateTime.

(** [attr_of html selector name]: [$(selector).attr(name)] on the document
    loaded from [html]; [None] is [undefined]. *)
Variable attr_of : string -> string -> string -> option string.

(** The whole method [getCourseEvents]: the request, the status check and
    the body, then the stages above. *)
Definition getCourseEvents_async (this : TimeEditAPI) (now : DateTime)
    (courseId : JValue) : Async (list Event) :=
  let courseURL := getCourseUrl this courseId in
  Fetch courseURL (await (fun res =>
    checked res
      (Json res (await (fun jsonData =>
         settle (getCourseEvents fromISO fromSQL this now jsonData)))))).

Definition parseHTML (this : TimeEditAPI) (url : string) : Async CheerioAPI :=
  Fetch url (await (fun res =>
    checked res
      (Text res (await (fun data => Resolve {| html := data |}))))).

Definition getCourseId (this : TimeEditAPI) (courseCode : JValue)
  : Async (option string) :=
  and_then (parseHTML this (getSearchURL this courseCode (JNum 5)))
    (fun doc => Resolve (attr_of (html doc) "#objectbasketitemX0"
                                 "data-idonly")).

(** The driver of the example: look the course up, then fetch its
    events. *)
Definition fetchCourseEvents (timeEdit : TimeEditAPI) (now : DateTime)
    (courseName : JValue) : Async (list Event) :=
  and_then (getCourseId timeEdit courseName)
    (fun courseCode =>
       getCourseEvents_async timeEdit now (optional courseCode)).

End Methods.

(** ** Running a method against an environment *)

Record Env (W : Type) : Type := mkEnv {
  on_fetch : string -> W -> Answer Response * W;
  on_text : Response -> W -> Answer string * W;
  on_json : Response -> W -> Answer JValue * W
}.

Arguments on_fetch {W} e url w.
Arguments on_text {W} e res w.
Arguments on_json {W} e res w.

Inductive Call : Type :=
| Fetched (url : string)
| TextRead (res : Response)
| JsonRead (res : Response)
| Logged (entry : LogEntry).

(** The state of the returned promise ([None]: still pending), the calls
    made in order, and the environment left behind. *)
Record Run (W A : Type) : Type := mkRun {
  settled : option (Outcome A);
  calls : list Call;
  world : W
}.

Arguments mkRun {W A} settled calls world.
Arguments settled {W A} r.
Arguments calls {W A} r.
Arguments world {W A} r.

Definition after {W A : Type} (c : Call) (r : Run W A) : Run W A :=
  {| settled := settled r; calls := c :: calls r; world := world r |}.

Fixpoint run {W A : Type} (env : Env W) (p : Async A) (w : W) : Run W A :=
  match p with
  | Resolve a => mkRun (Some (Fulfilled a)) [] w
  | Reject r => mkRun (Some (Rejected r)) [] w
  | Forever => mkRun None [] w
  | Fetch url k =>
      let (a, w') := on_fetch env url w in
      after (Fetched url) (run env (k a) w')
  | Text res k =>
      let (a, w') := on_text env res w in
      after (TextRead res) (run env (k a) w')
  | Json res k =>
      let (a, w') := on_json env res w in
      after (JsonRead res) (run env (k a) w')
  | ConsoleError entry k => after (Logged entry) (run env k w)
  end.

Definition fetches (cs : list Call) : list string :=
  flat_map (fun c => match c with Fetched url => [url] | _ => [] end) cs.

Definition logged (cs : list Call) : list LogEntry :=
  flat_map (fun c => match c with Logged e => [e] | _ => [] end) cs.

(** ** The first version of the class ([src/index.ts]) and its driver *)

Module Index.

Record TimeEditAPI : Type := mkTimeEditAPI { baseUrl : string }.

Definition constructor (baseUrl : string) : TimeEditAPI :=
  {| baseUrl := baseUrl |}.

Definition getCourseUrl (this : TimeEditAPI) (courseId : string) : string :=
  baseUrl this ++ "ri.json?h=f&sid=3&p=0.m%2C12.n&objects=" ++ courseId
  ++ "&ox=0&types=0&fe=0&h2=f".

(** The executor calls [fetch], drops its promise, and calls neither
    [resolve] nor [reject]. *)
Definition getCourse (this : TimeEditAPI) (courseId : string)
  : Async (Answer Response) :=
  let courseURL := getCourseUrl this courseId in
  Fetch courseURL (fun _ => Forever).

Definition fetchCourse (timeEdit : TimeEditAPI) (courseName : string)
  : Async (Answer Response) :=
  let courseUrl := getCourseUrl timeEdit courseName in
  getCourse timeEdit courseUrl.

End Index.

(** ** Sample environments *)

(** A server whose bodies can be read once, as a stream: the flag says
    whether the body of its response has been used. *)
Definition one_shot (res : Response) (body : string) (parsed : JValue)
  : Env bool :=
  {| on_fetch := fun _ (used : bool) => (Gave res, used);
     on_text := fun _ (used : bool) =>
       if used then (Broke "body used already", true) else (Gave body, true);
     on_json := fun _ (used : bool) =>
       if used then (Broke "body used already", true)
       else (Gave parsed, true) |}.

(** A server whose bodies can be read again. *)
Definition replay (res : Response) (body : string) (parsed : JValue)
  : Env unit :=
  {| on_fetch := fun _ (w : unit) => (Gave res, w);
     on_text := fun _ (w : unit) => (Gave body, w);
     on_json := fun _ (w : unit) => (Gave parsed, w) |}.

(** A network that is down. *)
Definition offline : Env unit :=
  {| on_fetch := fun _ (w : unit) => (Broke "ENOTFOUND", w);
     on_text := fun _ (w : unit) => (Broke "no body", w);
     on_json := fun _ (w : unit) => (Broke "no body", w) |}.

Definition ok_200 : Response :=
  {| ok := true; status := 200; statusText := "OK" |}.

Definition not_found_404 : Response :=
  {| ok := false; status := 404; statusText := "Not Found" |}.

(** A lookup that finds the identifier 12345 in every page but the empty
    one. *)
Definition sample_attr_of (html selector name : string) : option string :=
  if String.eqb html "" then None
  else if String.eqb selector "#objectbasketitemX0"
          && String.eqb name "data-idonly"
  then Some "12345" else None.

(** ** Further notions used in the statements *)

(** [starts_within pat cur s]: an occurrence of [pat] in [cur ++ s]
    starts inside [cur]. *)
Fixpoint starts_within (pat cur s : string) : bool :=
  match cur with
  | EmptyString => false
  | String _ cur' => prefix pat (cur ++ s) || starts_within pat cur' s
  end.

(** The event with its location resolved to KTH search URLs. *)
Definition resolved (event : Event) : Event :=
  {| startDate := startDate event;
     endDate := endDate event;
     lecturers := lecturers event;
     location := getKTHLocationURL (location event);
     type := type event |}.

(** The instance with [useKTHPlaces] set to [b]. *)
Definition with_useKTHPlaces (b : bool) (this : TimeEditAPI) : TimeEditAPI :=
  {| baseUrl := baseUrl this;
     filterEmpty := filterEmpty this;
     filterStartDate := filterStartDate this;
     filterEndDate := filterEndDate this;
     filterToSemester := filterToSemester this;
     useKTHPlaces := b |}.

Definition map_result {A B : Type} (f : A -> B) (r : Result A) : Result B :=
  match r with
  | Ok a => Ok (f a)
  | Throw e => Throw e
  end.

(** The promise state an [async] body ends in. *)
Definition outcome_of {A : Type} (r : Result A) : Outcome A :=
  match r with
  | Ok a => Fulfilled a
  | Throw e => Rejected (PipelineError e)
  end.

(** ** Further sample inputs *)

(** The events of the sample rows under the sample parsers. *)
Definition new_years_eve_event : Event :=
  {| startDate :=
       Valid {| ts := 1704016800000; c_year := 2023; c_month := 12 |};
     endDate :=
       Valid {| ts := 1704024000000; c_year := 2023; c_month := 12 |};
     lecturers := ["A B"; "C D"];
     location := ["Room1"];
     type := JStr "Lecture" |}.

Definition no_lecturer_event : Event :=
  {| startDate :=
       Valid {| ts := 1712743200000; c_year := 2024; c_month := 4 |};
     endDate :=
       Valid {| ts := 1712750400000; c_year := 2024; c_month := 4 |};
     lecturers := [""];
     location := ["Room1"];
     type := JStr "Lecture" |}.

(** [new TimeEditAPI({ baseUrl, filterToSemester: false })]. *)
Definition api_plain : TimeEditAPI :=
  constructor
    {| opt_baseUrl := Some KTH_public;
       opt_filterEmpty := None;
       opt_filterToSemester := Some false;
       opt_startDate := None;
       opt_endDate := None;
       opt_useKTHPlaces := None |}.

(** The object [{"toString": 1}], which has no conversion to a string. *)
Definition no_conversion : JValue := JObj [("toString", JNum 1)].

(** The sample lecture with that object as its start date. *)
Definition odd_date_row : JValue :=
  JObj [("startdate", no_conversion);
        ("starttime", JStr "10:00");
        ("enddate", JStr "2023-12-31");
        ("endtime", JStr "12:00");
        ("columns", JArr (columns new_years_eve))].

Definition two_rows : JValue :=
  feed [reservation_row new_years_eve; reservation_row no_lecturer].

Definition DD2482_url : string :=
  getCourseUrl api_plain (JStr "12345").

Definition DD2482_search : string :=
  getSearchURL api_plain (JStr "DD2482") (JNum 5).

(** * Properties *)

(** ** Strings *)

Example split_empty : JSString.split ", " "" = [""].
Proof. reflexivity. Qed.

Example split_two : JSString.split ", " "A B, C D" = ["A B"; "C D"].
Proof. reflexivity. Qed.

Example split_trailing : JSString.split ", " "a,b, " = ["a,b"; ""].
Proof. reflexivity. Qed.

Example split_adjacent : JSString.split ", " ", , x" = [""; ""; "x"].
Proof. reflexivity. Qed.

Example remove_first_once : JSString.remove_first "b" "abcb" = "acb".
Proof. reflexivity. Qed.

Lemma split_from_not_nil (sep : string) (s : string) :
  forall skip cur, JSString.split_from sep skip cur s <> [].
Proof.
  induction s as [|c r IH]; intros skip cur; cbn [JSString.split_from].
  - discriminate.
  - destruct skip as [|k].
    + destruct (prefix sep (String c r)); [discriminate | apply IH].
    + apply IH.
Qed.

Lemma split_not_nil (sep s : string) : JSString.split sep s <> [].
Proof. apply split_from_not_nil. Qed.

Lemma prefix_sign (s : string) :
  prefix JSString.section_sign s =
  match s with
  | EmptyString => false
  | String c _ => Ascii.eqb c (ascii_of_nat 167)
  end.
Proof.
  destruct s as [|c r]; [reflexivity|].
  unfold JSString.section_sign; cbn [prefix].
  destruct (ascii_dec (ascii_of_nat 167) c) as [e|n].
  - subst c. rewrite Ascii.eqb_refl. now destruct r.
  - symmetry. apply Ascii.eqb_neq. congruence.
Qed.

Lemma includes_sign_cons (c : ascii) (r : string) :
  JSString.includes JSString.section_sign (String c r) =
  Ascii.eqb c (ascii_of_nat 167) || JSString.includes JSString.section_sign r.
Proof.
  change (JSString.includes JSString.section_sign (String c r))
    with (if prefix JSString.section_sign (String c r) then true
          else JSString.includes JSString.section_sign r).
  rewrite prefix_sign. now destruct (Ascii.eqb c (ascii_of_nat 167)).
Qed.

Lemma includes_sign_app (a b : string) :
  JSString.includes JSString.section_sign (a ++ b) =
  JSString.includes JSString.section_sign a
  || JSString.includes JSString.section_sign b.
Proof.
  induction a as [|c r IH].
  - reflexivity.
  - change (String c r ++ b) with (String c (r ++ b)).
    rewrite !includes_sign_cons, IH. apply orb_assoc.
Qed.

Lemma remove_first_sign_cons (c : ascii) (r : string) :
  JSString.remove_first JSString.section_sign (String c r) =
  if Ascii.eqb c (ascii_of_nat 167) then r
  else String c (JSString.remove_first JSString.section_sign r).
Proof.
  change (JSString.remove_first JSString.section_sign (String c r))
    with (if prefix JSString.section_sign (String c r)
          then JSString.drop (String.length JSString.section_sign) (String c r)
          else String c (JSString.remove_first JSString.section_sign r)).
  rewrite prefix_sign. now destruct (Ascii.eqb c (ascii_of_nat 167)).
Qed.

Lemma no_sign_includes (s : string) :
  section_signs s = O ->
  JSString.includes JSString.section_sign s = false.
Proof.
  induction s as [|c r IH]; [reflexivity|].
  rewrite includes_sign_cons. simpl.
  destruct (Ascii.eqb c (ascii_of_nat 167)); [discriminate|].
  intros H. now rewrite IH.
Qed.

Lemma remove_first_clears_one (s : string) :
  (section_signs s <= 1)%nat ->
  JSString.includes JSString.section_sign
    (JSString.remove_first JSString.section_sign s) = false.
Proof.
  induction s as [|c r IH]; [reflexivity|].
  rewrite remove_first_sign_cons. simpl.
  destruct (Ascii.eqb c (ascii_of_nat 167)) eqn:E; intros H.
  - apply no_sign_includes. lia.
  - rewrite includes_sign_cons, E. apply IH. lia.
Qed.

Lemma remove_first_absent (s : string) :
  section_signs s = O ->
  JSString.remove_first JSString.section_sign s = s.
Proof.
  induction s as [|c r IH]; [reflexivity|].
  rewrite remove_first_sign_cons. simpl.
  destruct (Ascii.eqb c (ascii_of_nat 167)); [discriminate|].
  intros H. now rewrite IH.
Qed.

(** ** [getKTHLocationURL] *)

Lemma getKTHLocationURL_fold (locations acc : list string) :
  fold_left
    (fun urls location =>
       (urls ++ [KTH_search_url
                   (JSString.remove_first JSString.section_sign location)])%list)
    locations acc
  = (acc ++ map (fun location =>
                   KTH_search_url
                     (JSString.remove_first JSString.section_sign location))
                locations)%list.
Proof.
  revert acc. induction locations as [|x r IH]; intros acc; simpl.
  - now rewrite app_nil_r.
  - rewrite IH, <- app_assoc. reflexivity.
Qed.

Lemma getKTHLocationURL_map (locations : list string) :
  getKTHLocationURL locations =
  map (fun location =>
         KTH_search_url (JSString.remove_first JSString.section_sign location))
      locations.
Proof. unfold getKTHLocationURL. now rewrite getKTHLocationURL_fold. Qed.

Lemma getKTHLocationURL_length (locations : list string) :
  List.length (getKTHLocationURL locations) = List.length locations.
Proof. rewrite getKTHLocationURL_map. apply length_map. Qed.

(** C6, as the code has it.  [getKTHLocationURL] keeps the length and maps
    the tokens one by one: the URL at position [i] is the KTH search URL
    of the token at position [i] with its first section sign removed (a
    token without one is used as it is).  A token with at most one
    section sign gives a URL without any; the token "§Room 1" gives the
    URL with the query term "Room 1" and no section sign. *)
Theorem getKTHLocationURL_removes_first_sign (locations : list string) :
  List.length (getKTHLocationURL locations) = List.length locations
  /\ (forall i,
        nth_error (getKTHLocationURL locations) i =
        option_map
          (fun location =>
             KTH_search_url
               (JSString.remove_first JSString.section_sign location))
          (nth_error locations i))
  /\ (forall a b,
        section_signs a = O ->
        JSString.remove_first JSString.section_sign
          (a ++ JSString.section_sign ++ b) = a ++ b)
  /\ (forall s,
        section_signs s = O ->
        JSString.remove_first JSString.section_sign s = s)
  /\ (forall location,
        (section_signs location <= 1)%nat ->
        JSString.includes JSString.section_sign
          (KTH_search_url
             (JSString.remove_first JSString.section_sign location)) = false)
  /\ getKTHLocationURL [Room_1_marked] =
     ["https://www.kth.se/search?q=Room 1&entityFilter=kth-place&filterLabel=Facilities&lang=en"]
  /\ forallb (fun url => negb (JSString.includes JSString.section_sign url))
       (getKTHLocationURL [Room_1_marked]) = true.
Proof.
  repeat split.
  - apply getKTHLocationURL_length.
  - intros i. rewrite getKTHLocationURL_map. apply nth_error_map.
  - intros a b Ha. induction a as [|c r IH].
    + change ("" ++ JSString.section_sign ++ b)
        with (String (ascii_of_nat 167) b).
      now rewrite remove_first_sign_cons, Ascii.eqb_refl.
    + change (String c r ++ JSString.section_sign ++ b)
        with (String c (r ++ JSString.section_sign ++ b)).
      rewrite remove_first_sign_cons. simpl in Ha.
      destruct (Ascii.eqb c (ascii_of_nat 167)); [discriminate|].
      rewrite IH by exact Ha. reflexivity.
  - apply remove_first_absent.
  - intros location H. unfold KTH_search_url.
    rewrite !includes_sign_app, (remove_first_clears_one _ H).
    reflexivity.
Qed.

(** C6, the claim as stated fails: of the token "§§A" only the first
    section sign is removed, so the URL still holds one and differs from
    the URL of the stripped token. *)
Lemma getKTHLocationURL_keeps_second_sign :
  getKTHLocationURL [twice_marked] =
    [KTH_search_url (JSString.section_sign ++ "A")]
  /\ existsb (JSString.includes JSString.section_sign)
       (getKTHLocationURL [twice_marked]) = true
  /\ getKTHLocationURL [twice_marked] <>
     map (fun location => KTH_search_url (stripped location)) [twice_marked].
Proof.
  repeat split; try reflexivity.
  vm_compute. discriminate.
Qed.

(** ** [eventInCurrentKTHPeriod] *)

Lemma includes_In (l : list Z) (m : Z) :
  JS.array_includes l (Some m) = true <-> In m l.
Proof.
  simpl. rewrite existsb_exists. split.
  - intros [x [Hin Heq]]. apply Z.eqb_eq in Heq. now subst.
  - intros H. exists m. split; [exact H | apply Z.eqb_refl].
Qed.

Lemma currentSemester_In (now : DateTime) (m : Z) :
  In m (currentSemester now) <->
  exists mn,
    DateTimeOps.month now = Some mn
    /\ ((1 < mn < 7 /\ In m [1; 2; 3; 4; 5; 6])
        \/ (7 < mn <= 12 /\ In m [8; 9; 10; 11; 12])).
Proof.
  unfold currentSemester.
  destruct now as [n|]; cbn [DateTimeOps.month JS.lt JS.le].
  - destruct (Z.ltb_spec 1 (c_month n)) as [L1|L1];
      destruct (Z.ltb_spec (c_month n) 7) as [L7|L7];
      destruct (Z.ltb_spec 7 (c_month n)) as [G7|G7];
      destruct (Z.leb_spec (c_month n) 12) as [G12|G12];
      cbn [andb]; try lia.
    all: split;
      [ intros Hin; exists (c_month n); split; [reflexivity|];
        first [ left; split; [lia | exact Hin]
              | right; split; [lia | exact Hin]
              | destruct Hin ]
      | intros (mn & Hm & Hp); injection Hm as <-;
        destruct Hp as [[Hr Hin]|[Hr Hin]]; first [exact Hin | lia] ].
  - cbn [andb]. split; [intros [] | intros (mn & Hm & _); discriminate].
Qed.

Lemma hasSame_year_iff (a b : DateTime) :
  DateTimeOps.hasSame_year a b = true <->
  exists y, DateTimeOps.year a = Some y /\ DateTimeOps.year b = Some y.
Proof.
  destruct a as [x|], b as [z|]; simpl.
  - rewrite Z.eqb_eq. split.
    + intros H. exists (c_year x). now rewrite H.
    + intros (y & H1 & H2). congruence.
  - split; [discriminate | intros (y & _ & H); discriminate].
  - split; [discriminate | intros (y & H & _); discriminate].
  - split; [discriminate | intros (y & H & _); discriminate].
Qed.

(** C1.  The semester filter never throws, and it keeps an event exactly
    when the start date and the clock reading are in the same year and
    the month of the start date lies in the current period: months 1 to 6
    when the month of the clock reading is strictly between 1 and 7,
    months 8 to 12 when it is above 7 and at most 12, no month otherwise.
    With the clock in month 1 or 7 no event is kept. *)
Theorem eventInCurrentKTHPeriod_spec
    (now : DateTime) (this : option TimeEditAPI) (event : Event) :
  exists keep : bool,
    eventInCurrentKTHPeriod now this event = Ok keep
    /\ (keep = true <->
        exists y mn m,
          DateTimeOps.year now = Some y
          /\ DateTimeOps.year (startDate event) = Some y
          /\ DateTimeOps.month now = Some mn
          /\ DateTimeOps.month (startDate event) = Some m
          /\ ((1 < mn < 7 /\ In m [1; 2; 3; 4; 5; 6])
              \/ (7 < mn <= 12 /\ In m [8; 9; 10; 11; 12])))
    /\ (DateTimeOps.month now = Some 1 \/ DateTimeOps.month now = Some 7 ->
        keep = false).
Proof.
  eexists. split; [reflexivity|]. split.
  - rewrite andb_true_iff, hasSame_year_iff. split.
    + intros [Hin (y & Hy1 & Hy2)].
      destruct (DateTimeOps.month (startDate event)) as [m|] eqn:Em;
        [|discriminate].
      apply includes_In, currentSemester_In in Hin.
      destruct Hin as (mn & Hmn & Hp).
      exists y, mn, m. repeat split; assumption.
    + intros (y & mn & m & Hy1 & Hy2 & Hmn & Hm & Hp). split.
      * rewrite Hm. apply includes_In, currentSemester_In.
        exists mn. split; assumption.
      * exists y. split; assumption.
  - intros H. apply andb_false_iff. left.
    assert (E : currentSemester now = []).
    { unfold currentSemester. destruct H as [-> | ->]; reflexivity. }
    rewrite E. now destruct (DateTimeOps.month (startDate event)).
Qed.

Example semester_march_keeps_april :
  eventInCurrentKTHPeriod march_2024 None (starting 2024 4 1712649600000)
  = Ok true.
Proof. reflexivity. Qed.

Example semester_march_drops_august :
  eventInCurrentKTHPeriod march_2024 None (starting 2024 8 1724140800000)
  = Ok false.
Proof. reflexivity. Qed.

Example semester_march_drops_other_year :
  eventInCurrentKTHPeriod march_2024 None (starting 2023 4 1681027200000)
  = Ok false.
Proof. reflexivity. Qed.

Example semester_july_drops_july :
  eventInCurrentKTHPeriod july_2024 None (starting 2024 7 1721037600000)
  = Ok false.
Proof. reflexivity. Qed.

(** ** [filterEmptyEvents] *)

Lemma length_zero_nil {A : Type} (l : list A) :
  (List.length l =? 0)%nat = true <-> l = [].
Proof. destruct l; simpl; split; congruence. Qed.

Lemma filterEmptyEvents_value (this : option TimeEditAPI) (event : Event) :
  filterEmptyEvents this event =
  if (List.length (lecturers event) =? 0)%nat
     || (List.length (location event) =? 0)%nat
  then Ok false
  else type_not_empty event.
Proof.
  unfold filterEmptyEvents, type_not_empty.
  destruct (List.length (lecturers event) =? 0)%nat; [reflexivity|].
  destruct (List.length (location event) =? 0)%nat; [reflexivity|].
  cbn [orb].
  destruct (JS.equals_empty_string (type event)) as [[|]|e]; reflexivity.
Qed.

Lemma filterEmptyEvents_converts (this : option TimeEditAPI) (event : Event) :
  JS.converts (type event) = true ->
  filterEmptyEvents this event =
  Ok (negb ((List.length (lecturers event) =? 0)%nat
            || (List.length (location event) =? 0)%nat
            || JS.eq_empty_string (type event))).
Proof.
  intros H. rewrite filterEmptyEvents_value.
  unfold type_not_empty, JS.equals_empty_string. rewrite H.
  destruct (List.length (lecturers event) =? 0)%nat; [reflexivity|].
  now destruct (List.length (location event) =? 0)%nat.
Qed.

(** C4.  On an event whose [type] is a string, as the signature of
    [filterEmptyEvents] has it, the filter drops the event exactly when
    the lecturers are empty, or the location is empty, or the type is the
    empty string; it keeps the event exactly when all three are
    non-empty. *)
Theorem filterEmptyEvents_spec
    (this : option TimeEditAPI) (sd ed : DateTime)
    (lec loc : list string) (ty : string) :
  (filterEmptyEvents this (mkEvent sd ed lec loc (JStr ty)) = Ok false
   <-> lec = [] \/ loc = [] \/ ty = "")
  /\ (filterEmptyEvents this (mkEvent sd ed lec loc (JStr ty)) = Ok true
      <-> lec <> [] /\ loc <> [] /\ ty <> "").
Proof.
  rewrite filterEmptyEvents_converts by reflexivity.
  cbn [lecturers location type].
  cbn [JS.eq_empty_string].
  pose proof (length_zero_nil lec) as Hl.
  pose proof (length_zero_nil loc) as Ho.
  pose proof (String.eqb_eq ty "") as Ht.
  destruct (List.length lec =? 0)%nat, (List.length loc =? 0)%nat,
    (String.eqb ty ""); cbn [negb orb].
  all: split; split; intros H; try discriminate; try reflexivity;
    try tauto.
  all: try (exfalso; destruct H as [H | [H | H]];
            [apply Hl in H | apply Ho in H | apply Ht in H]; discriminate).
  all: try (destruct H as (H1 & H2 & H3); exfalso;
            first [ apply H1; apply Hl; reflexivity
                  | apply H2; apply Ho; reflexivity
                  | apply H3; apply Ht; reflexivity ]).
  repeat split; intros E;
    [apply Hl in E | apply Ho in E | apply Ht in E]; discriminate.
Qed.

Example empty_lecturers_dropped :
  filterEmptyEvents None
    (mkEvent Invalid Invalid [] ["Room1"] (JStr "Lecture")) = Ok false.
Proof. reflexivity. Qed.

Example empty_type_dropped :
  filterEmptyEvents None
    (mkEvent Invalid Invalid ["A"] ["Room1"] (JStr "")) = Ok false.
Proof. reflexivity. Qed.

Example empty_location_dropped :
  filterEmptyEvents None
    (mkEvent Invalid Invalid ["A"] [] (JStr "Lecture")) = Ok false.
Proof. reflexivity. Qed.

Example all_present_kept :
  filterEmptyEvents None
    (mkEvent Invalid Invalid ["A"] ["Room1"] (JStr "Lecture")) = Ok true.
Proof. reflexivity. Qed.

Example undefined_type_kept :
  filterEmptyEvents None
    (mkEvent Invalid Invalid ["A"] ["Room1"] JUndefined) = Ok true.
Proof. reflexivity. Qed.

(** ** Arrays *)

Lemma filter_list_pure {A : Type} (p : A -> bool) (l : list A) :
  JS.filter_list (fun x => Ok (p x)) l = Ok (filter p l).
Proof.
  induction l as [|x r IH]; [reflexivity|].
  cbn [JS.filter_list bind filter]. rewrite IH. reflexivity.
Qed.

Lemma filter_list_ext {A : Type} (p q : A -> Result bool) (l : list A) :
  (forall x, p x = q x) -> JS.filter_list p l = JS.filter_list q l.
Proof.
  intros H. induction l as [|x r IH]; [reflexivity|].
  cbn [JS.filter_list]. now rewrite H, IH.
Qed.

Lemma map_list_ok {A B : Type} (f : A -> Result B) (l : list A) (ys : list B) :
  JS.map_list f l = Ok ys -> Forall2 (fun x y => f x = Ok y) l ys.
Proof.
  revert ys. induction l as [|x r IH]; intros ys; cbn [JS.map_list].
  - intros H. injection H as <-. constructor.
  - destruct (f x) as [y|e] eqn:Ex; cbn [bind]; [|discriminate].
    destruct (JS.map_list f r) as [zs|e]; cbn [bind]; [|discriminate].
    intros H. injection H as <-. constructor; [exact Ex | now apply IH].
Qed.

Lemma map_list_throw {A B : Type} (f : A -> Result B) (l : list A) (x : A)
    (e : JSError) :
  In x l -> f x = Throw e -> JS.map_list f l = Throw TypeError.
Proof.
  induction l as [|z r IH]; intros Hin Hx; [destruct Hin|].
  cbn [JS.map_list]. destruct Hin as [-> | Hin].
  - rewrite Hx. now destruct e.
  - destruct (f z) as [y|[]]; cbn [bind]; [|reflexivity].
    rewrite (IH Hin Hx). reflexivity.
Qed.

Lemma Array_filter_semester (now : DateTime) (l : list Event) :
  Array_filter (eventInCurrentKTHPeriod now) l
  = Ok (filter (in_current_period now) l).
Proof. unfold Array_filter. apply filter_list_pure. Qed.

Lemma filter_list_ok {A : Type} (p : A -> Result bool) (l l' : list A) :
  JS.filter_list p l = Ok l' -> l' = filter (answers_true p) l.
Proof.
  revert l'. induction l as [|x r IH]; intros l'; cbn [JS.filter_list].
  - intros H. now injection H as <-.
  - unfold answers_true at 1. cbn [filter].
    destruct (p x) as [b|e]; cbn [bind]; [|discriminate].
    destruct (JS.filter_list p r) as [ys|e]; cbn [bind]; [|discriminate].
    intros H. injection H as <-. now rewrite (IH ys eq_refl).
Qed.

Lemma filter_list_kept {A : Type} (p : A -> Result bool) (l l' : list A) :
  JS.filter_list p l = Ok l' -> forall x, In x l' -> p x = Ok true.
Proof.
  intros H x Hin. rewrite (filter_list_ok p l l' H) in Hin.
  apply filter_In in Hin. destruct Hin as [_ Hx].
  unfold answers_true in Hx. destruct (p x) as [b|e]; congruence.
Qed.

(** ** [getCourseEvents] *)

Section Pipeline.

Variable fromISO : string -> DateTime.
Variable fromSQL : string -> DateTime.

(** Called with its instance as [this], [eventBeforeDate] compares the
    end date with the parsed [filterStartDate]. *)
Lemma eventBeforeDate_bound (this : TimeEditAPI) (event : Event) (s : string) :
  filterStartDate this = Some s ->
  eventBeforeDate fromSQL (Some this) event
  = Ok (DateTimeOps.lt (endDate event) (fromSQL s)).
Proof. intros H. unfold eventBeforeDate, fromSQL_field. now rewrite H. Qed.

(** Called by [filter], [eventBeforeDate] has no [this]. *)
Lemma Array_filter_eventBeforeDate (l : list Event) :
  Array_filter (eventBeforeDate fromSQL) l =
  match l with
  | [] => Ok []
  | _ :: _ => Throw TypeError
  end.
Proof. destruct l; reflexivity. Qed.

Lemma dates_convert_fields (row : JValue) :
  dates_convert row = true ->
  exists startdate starttime enddate endtime,
    JS.get row "startdate" = Ok startdate
    /\ JS.get row "starttime" = Ok starttime
    /\ JS.get row "enddate" = Ok enddate
    /\ JS.get row "endtime" = Ok endtime
    /\ JS.template startdate = Ok (JS.to_string startdate)
    /\ JS.template starttime = Ok (JS.to_string starttime)
    /\ JS.template enddate = Ok (JS.to_string enddate)
    /\ JS.template endtime = Ok (JS.to_string endtime).
Proof.
  unfold dates_convert, field_converts, JS.template. intros H.
  destruct (JS.get row "startdate") as [v1|];
    [|now rewrite ?andb_false_l in H].
  destruct (JS.get row "starttime") as [v2|];
    [|now rewrite ?andb_false_r, ?andb_false_l in H].
  destruct (JS.get row "enddate") as [v3|];
    [|now rewrite ?andb_false_r, ?andb_false_l in H].
  destruct (JS.get row "endtime") as [v4|];
    [|now rewrite ?andb_false_r in H].
  apply andb_true_iff in H. destruct H as [H H4].
  apply andb_true_iff in H. destruct H as [H H3].
  apply andb_true_iff in H. destruct H as [H1 H2].
  exists v1, v2, v3, v4. rewrite H1, H2, H3, H4. repeat split.
Qed.

Lemma reservation_to_event_columns (this : TimeEditAPI) (row : JValue)
    (columns : JValue) (s3 s4 : string) :
  dates_convert row = true ->
  JS.get row "columns" = Ok columns ->
  JS.index columns 3 = Ok (JStr s3) ->
  JS.index columns 4 = Ok (JStr s4) ->
  exists startdate starttime enddate endtime c5,
    JS.get row "startdate" = Ok startdate
    /\ JS.get row "starttime" = Ok starttime
    /\ JS.get row "enddate" = Ok enddate
    /\ JS.get row "endtime" = Ok endtime
    /\ JS.index columns 5 = Ok c5
    /\ reservation_to_event fromISO this row =
       Ok {| startDate :=
               fromISO (JS.to_string startdate ++ "T"
                        ++ JS.to_string starttime);
             endDate :=
               fromISO (JS.to_string enddate ++ "T" ++ JS.to_string endtime);
             lecturers := JSString.split ", " s3;
             location :=
               if useKTHPlaces this
               then getKTHLocationURL (JSString.split ", " s4)
               else JSString.split ", " s4;
             type := c5 |}.
Proof.
  intros Hd Hc H3 H4.
  destruct (dates_convert_fields row Hd)
    as (v1 & v2 & v3 & v4 & E1 & E2 & E3 & E4 & T1 & T2 & T3 & T4).
  assert (H5 : exists c5, JS.index columns 5 = Ok c5).
  { destruct columns; try discriminate; cbn; eauto. }
  destruct H5 as [c5 H5].
  exists v1, v2, v3, v4, c5.
  repeat split; try assumption.
  unfold reservation_to_event.
  rewrite E1, E2, E3, E4, Hc. cbn [bind].
  rewrite T1, T2, T3, T4. cbn [bind].
  rewrite H3, H4, H5. reflexivity.
Qed.

Lemma reservation_to_event_throws (this : TimeEditAPI) (row : JValue) :
  ~ (dates_convert row = true
     /\ exists columns s3 s4,
          JS.get row "columns" = Ok columns
          /\ JS.index columns 3 = Ok (JStr s3)
          /\ JS.index columns 4 = Ok (JStr s4)) ->
  reservation_to_event fromISO this row = Throw TypeError.
Proof.
  intros H. unfold reservation_to_event, JS.template.
  destruct (JS.get row "startdate") as [v1|[]] eqn:E1;
    cbn [bind]; [|reflexivity].
  destruct (JS.converts v1) eqn:C1; cbn [bind]; [|reflexivity].
  destruct (JS.get row "starttime") as [v2|[]] eqn:E2;
    cbn [bind]; [|reflexivity].
  destruct (JS.converts v2) eqn:C2; cbn [bind]; [|reflexivity].
  destruct (JS.get row "enddate") as [v3|[]] eqn:E3;
    cbn [bind]; [|reflexivity].
  destruct (JS.converts v3) eqn:C3; cbn [bind]; [|reflexivity].
  destruct (JS.get row "endtime") as [v4|[]] eqn:E4;
    cbn [bind]; [|reflexivity].
  destruct (JS.converts v4) eqn:C4; cbn [bind]; [|reflexivity].
  destruct (JS.get row "columns") as [columns|[]] eqn:Ec;
    cbn [bind]; [|reflexivity].
  destruct (JS.index columns 3) as [c3|[]] eqn:I3;
    cbn [bind]; [|reflexivity].
  destruct c3 as [| | | |s3| |]; cbn [JS.call_split bind]; try reflexivity.
  destruct (JS.index columns 4) as [c4|[]] eqn:I4;
    cbn [bind]; [|reflexivity].
  destruct c4 as [| | | |s4| |]; cbn [JS.call_split bind]; try reflexivity.
  exfalso. apply H. split.
  - unfold dates_convert, field_converts.
    now rewrite E1, E2, E3, E4, C1, C2, C3, C4.
  - now exists columns, s3, s4.
Qed.

Lemma filter_all {A : Type} (l : list A) : filter (fun _ => true) l = l.
Proof. induction l as [|x r IH]; simpl; congruence. Qed.

Lemma filter_twice {A : Type} (p q : A -> bool) (l : list A) :
  filter q (filter p l) = filter (fun x => p x && q x) l.
Proof.
  induction l as [|x r IH]; [reflexivity|]. simpl.
  destruct (p x); simpl; [destruct (q x)|]; now rewrite IH.
Qed.

(** The stages of [getCourseEvents] in one expression: the rows are all
    mapped, the semester filter selects, the empty-field filter selects
    or throws, and the start-date filter, when on, either has nothing to
    test or throws. *)
Lemma getCourseEvents_stages (this : TimeEditAPI) (now : DateTime)
    (jsonData : JValue) :
  getCourseEvents fromISO fromSQL this now jsonData =
  (reservations <- JS.get jsonData "reservations" ;;
   mapped <- JS.call_map reservations (reservation_to_event fromISO this) ;;
   courseEvents <- empty_stage this (semester_stage this now mapped) ;;
   if JS.truthy (filterStartDate this)
   then match courseEvents with
        | [] => Ok []
        | _ :: _ => Throw TypeError
        end
   else Ok courseEvents).
Proof.
  unfold getCourseEvents, empty_stage, semester_stage.
  destruct (JS.get jsonData "reservations") as [rs|e];
    cbn [bind]; [|reflexivity].
  destruct (JS.call_map rs (reservation_to_event fromISO this))
    as [mapped|e]; cbn [bind]; [|reflexivity].
  assert (Hlast : forall r : Result (list Event),
    (courseEvents <- r ;;
     courseEvents <-
       (if JS.truthy (filterStartDate this)
        then Array_filter (eventBeforeDate fromSQL) courseEvents
        else Ok courseEvents) ;;
     Ok courseEvents)
    = (courseEvents <- r ;;
       if JS.truthy (filterStartDate this)
       then match courseEvents with
            | [] => Ok []
            | _ :: _ => Throw TypeError
            end
       else Ok courseEvents)).
  { intros [l|e]; cbn [bind]; [|reflexivity].
    destruct (JS.truthy (filterStartDate this)); [|reflexivity].
    rewrite Array_filter_eventBeforeDate. now destruct l. }
  destruct (filterToSemester this).
  - rewrite Array_filter_semester. cbn [bind]. apply Hlast.
  - cbn [bind]. apply Hlast.
Qed.

Lemma empty_stage_ok (this : TimeEditAPI) (l l' : list Event) :
  empty_stage this l = Ok l' ->
  exists keep,
    l' = filter keep l
    /\ forall event, In event l' ->
         filterEmpty this = true -> filterEmptyEvents None event = Ok true.
Proof.
  unfold empty_stage, Array_filter.
  destruct (filterEmpty this); intros H.
  - exists (answers_true (filterEmptyEvents None)). split.
    + now apply filter_list_ok.
    + intros event Hin _. exact (filter_list_kept _ _ _ H event Hin).
  - injection H as <-. exists (fun _ => true). split.
    + now rewrite filter_all.
    + discriminate.
Qed.

Lemma semester_stage_filter (this : TimeEditAPI) (now : DateTime)
    (l : list Event) :
  semester_stage this now l
  = filter (fun event =>
              implb (filterToSemester this) (in_current_period now event)) l.
Proof.
  unfold semester_stage. destruct (filterToSemester this); cbn [implb].
  - reflexivity.
  - now rewrite filter_all.
Qed.

(** *** The mapping of a row *)

(** C2.  On a row with the four date and time strings and a [columns]
    array holding strings at positions 3 and 4, the mapping returns an
    event: the dates are the ISO parses of date, "T" and time, the
    lecturers and the location are the splits of columns 3 and 4 on
    ", " (the location resolved to URLs when [useKTHPlaces] is on), and
    the type is column 5 as it is.  Rows carrying the same reservation
    map to the same event. *)
Theorem reservation_to_event_valid (this : TimeEditAPI) (row : JValue)
    (r : RawReservation) (s3 s4 : string) :
  is_reservation row r ->
  nth_error (columns r) 3 = Some (JStr s3) ->
  nth_error (columns r) 4 = Some (JStr s4) ->
  reservation_to_event fromISO this row =
    Ok {| startDate := fromISO (startdate r ++ "T" ++ starttime r);
          endDate := fromISO (enddate r ++ "T" ++ endtime r);
          lecturers := JSString.split ", " s3;
          location :=
            if useKTHPlaces this
            then getKTHLocationURL (JSString.split ", " s4)
            else JSString.split ", " s4;
          type := nth 5 (columns r) JUndefined |}
  /\ (forall row',
        is_reservation row' r ->
        reservation_to_event fromISO this row' =
        reservation_to_event fromISO this row).
Proof.
  intros Hrow H3 H4.
  assert (Hmap : forall row0, is_reservation row0 r ->
    reservation_to_event fromISO this row0 =
    Ok {| startDate := fromISO (startdate r ++ "T" ++ starttime r);
          endDate := fromISO (enddate r ++ "T" ++ endtime r);
          lecturers := JSString.split ", " s3;
          location :=
            if useKTHPlaces this
            then getKTHLocationURL (JSString.split ", " s4)
            else JSString.split ", " s4;
          type := nth 5 (columns r) JUndefined |}).
  { intros row0 (E1 & E2 & E3 & E4 & E5).
    unfold reservation_to_event.
    rewrite E1, E2, E3, E4, E5.
    cbn [bind JS.index JS.template JS.converts JS.to_string].
    rewrite (nth_error_nth _ _ JUndefined H3).
    rewrite (nth_error_nth _ _ JUndefined H4).
    reflexivity. }
  split.
  - apply Hmap, Hrow.
  - intros row' Hrow'. now rewrite (Hmap row' Hrow'), (Hmap row Hrow).
Qed.

(** C5.  A row whose column 3 is the empty string, and which maps (its
    column 4 is a string and its date and time fields convert), gets the
    lecturers [""], a sequence of length 1: the lecturers check of the
    empty-field filter does not drop it, and what the filter answers is
    what its last check, of the type, answers. *)
Theorem empty_lecturers_column_kept (this : TimeEditAPI) (row cols : JValue)
    (s4 : string) :
  dates_convert row = true ->
  JS.get row "columns" = Ok cols ->
  JS.index cols 3 = Ok (JStr "") ->
  JS.index cols 4 = Ok (JStr s4) ->
  exists event,
    reservation_to_event fromISO this row = Ok event
    /\ lecturers event = [""]
    /\ List.length (lecturers event) = 1%nat
    /\ (List.length (lecturers event) =? 0)%nat = false
    /\ (forall that, filterEmptyEvents that event = type_not_empty event)
    /\ (forall that s5,
          type event = JStr s5 ->
          filterEmptyEvents that event = Ok (negb (String.eqb s5 ""))).
Proof.
  intros Hd Hc H3 H4.
  destruct (reservation_to_event_columns this row cols "" s4 Hd Hc H3 H4)
    as (sd & st & ed & et & c5 & _ & _ & _ & _ & _ & E).
  eexists. split; [exact E|].
  cbn [lecturers]. split; [reflexivity|]. split; [reflexivity|].
  split; [reflexivity|].
  assert (Hv : forall that,
    filterEmptyEvents that
      {| startDate := fromISO (JS.to_string sd ++ "T" ++ JS.to_string st);
         endDate := fromISO (JS.to_string ed ++ "T" ++ JS.to_string et);
         lecturers := JSString.split ", " "";
         location :=
           if useKTHPlaces this
           then getKTHLocationURL (JSString.split ", " s4)
           else JSString.split ", " s4;
         type := c5 |}
    = type_not_empty
        {| startDate := fromISO (JS.to_string sd ++ "T" ++ JS.to_string st);
           endDate := fromISO (JS.to_string ed ++ "T" ++ JS.to_string et);
           lecturers := JSString.split ", " "";
           location :=
             if useKTHPlaces this
             then getKTHLocationURL (JSString.split ", " s4)
             else JSString.split ", " s4;
           type := c5 |}).
  { intros that. rewrite filterEmptyEvents_value.
    cbn [lecturers location].
    change (JSString.split ", " "") with [""].
    replace (List.length
               (if useKTHPlaces this
                then getKTHLocationURL (JSString.split ", " s4)
                else JSString.split ", " s4) =? 0)%nat with false.
    - reflexivity.
    - symmetry. apply Nat.eqb_neq.
      pose proof (split_not_nil ", " s4) as Hne.
      destruct (useKTHPlaces this).
      + rewrite getKTHLocationURL_length.
        destruct (JSString.split ", " s4); [congruence | discriminate].
      + destruct (JSString.split ", " s4); [congruence | discriminate]. }
  split; [exact Hv|].
  intros that s5 Hty. rewrite Hv. unfold type_not_empty.
  cbn [type] in *. now rewrite Hty.
Qed.

(** *** The pipeline *)

(** C7.  Two instances that differ in [filterEndDate] only return the
    same result, events or exception, on every body and clock reading. *)
Theorem getCourseEvents_ignores_filterEndDate
    (url : option string) (empty semester places : bool)
    (start end1 end2 : option string)
    (now : DateTime) (jsonData : JValue) :
  getCourseEvents fromISO fromSQL
    {| baseUrl := url; filterEmpty := empty; filterStartDate := start;
       filterEndDate := end1; filterToSemester := semester;
       useKTHPlaces := places |} now jsonData
  = getCourseEvents fromISO fromSQL
      {| baseUrl := url; filterEmpty := empty; filterStartDate := start;
         filterEndDate := end2; filterToSemester := semester;
         useKTHPlaces := places |} now jsonData.
Proof. reflexivity. Qed.

Lemma getCourseEvents_ok_inv (this : TimeEditAPI) (now : DateTime)
    (jsonData : JValue) (events : list Event) :
  getCourseEvents fromISO fromSQL this now jsonData = Ok events ->
  exists rows mapped,
    JS.get jsonData "reservations" = Ok (JArr rows)
    /\ JS.map_list (reservation_to_event fromISO this) rows = Ok mapped
    /\ exists keep, events = filter keep mapped.
Proof.
  rewrite getCourseEvents_stages.
  destruct (JS.get jsonData "reservations") as [rs|e];
    cbn [bind]; [|discriminate].
  destruct rs as [| | | | |rows|]; cbn [JS.call_map bind];
    try discriminate.
  destruct (JS.map_list (reservation_to_event fromISO this) rows)
    as [mapped|e] eqn:Em; cbn [bind]; [|discriminate].
  intros H. exists rows, mapped. split; [reflexivity|]. split; [exact Em|].
  destruct (empty_stage this (semester_stage this now mapped))
    as [kept|e] eqn:Es; cbn [bind] in H; [|discriminate].
  destruct (empty_stage_ok this _ kept Es) as (keep & -> & _).
  rewrite semester_stage_filter, filter_twice in H.
  destruct (JS.truthy (filterStartDate this)).
  - destruct (filter _ mapped) eqn:Ef; [|discriminate].
    eexists. rewrite Ef. congruence.
  - eexists. injection H as <-. reflexivity.
Qed.

(** C8, as the code has it.  The call throws when the body has no
    [reservations] array, and when one row fails to map; a row without
    [columns] holding strings at positions 3 and 4 fails to map, and the
    rows that fail are exactly these and the rows with a date or time
    field that does not convert to a string.  When the call returns,
    every row has been mapped and the result is a selection of the mapped
    events.  (A row without position 5 is no failure: its type is
    [undefined].) *)
Theorem getCourseEvents_all_or_nothing (this : TimeEditAPI)
    (now : DateTime) (jsonData : JValue) :
  ((forall rows, JS.get jsonData "reservations" <> Ok (JArr rows)) ->
   getCourseEvents fromISO fromSQL this now jsonData = Throw TypeError)
  /\ (forall rows row,
        JS.get jsonData "reservations" = Ok (JArr rows) ->
        In row rows ->
        reservation_to_event fromISO this row = Throw TypeError ->
        getCourseEvents fromISO fromSQL this now jsonData = Throw TypeError)
  /\ (forall row,
        (~ exists cols s3 s4,
             JS.get row "columns" = Ok cols
             /\ JS.index cols 3 = Ok (JStr s3)
             /\ JS.index cols 4 = Ok (JStr s4)) ->
        reservation_to_event fromISO this row = Throw TypeError)
  /\ (forall row,
        reservation_to_event fromISO this row = Throw TypeError <->
        ~ (dates_convert row = true
           /\ exists cols s3 s4,
                JS.get row "columns" = Ok cols
                /\ JS.index cols 3 = Ok (JStr s3)
                /\ JS.index cols 4 = Ok (JStr s4)))
  /\ (forall events,
        getCourseEvents fromISO fromSQL this now jsonData = Ok events ->
        exists rows mapped,
          JS.get jsonData "reservations" = Ok (JArr rows)
          /\ Forall2
               (fun row event =>
                  reservation_to_event fromISO this row = Ok event)
               rows mapped
          /\ exists keep, events = filter keep mapped).
Proof.
  split; [|split; [|split; [|split]]].
  - intros H. unfold getCourseEvents.
    destruct (JS.get jsonData "reservations") as [rs|[]];
      cbn [bind]; [|reflexivity].
    destruct rs as [| | | | |rows|]; try reflexivity.
    now destruct (H rows).
  - intros rows row Hr Hin Hrow. unfold getCourseEvents.
    rewrite Hr. cbn [bind JS.call_map].
    now rewrite (map_list_throw _ _ _ _ Hin Hrow).
  - intros row Hn. apply reservation_to_event_throws.
    intros [_ Hex]. exact (Hn Hex).
  - intros row. split.
    + intros Ht (Hd & cols & s3 & s4 & Hc & H3 & H4).
      destruct (reservation_to_event_columns this row cols s3 s4
                  Hd Hc H3 H4)
        as (sd & st & ed & et & c5 & _ & _ & _ & _ & _ & E).
      rewrite E in Ht. discriminate.
    + apply reservation_to_event_throws.
  - intros events H.
    destruct (getCourseEvents_ok_inv this now jsonData events H)
      as (rows & mapped & Hr & Hm & Hk).
    exists rows, mapped. repeat split; [exact Hr | | exact Hk].
    now apply map_list_ok.
Qed.

(** C9, as the code has it.  With [filterStartDate] set to a non-empty
    string, the call returns the empty list when no event reaches the
    start-date filter, that is, when the same call without
    [filterStartDate] returns no event; in every other case it throws a
    [TypeError].  It never returns an event. *)
Theorem getCourseEvents_startDate_throws (this : TimeEditAPI)
    (now : DateTime) (jsonData : JValue) :
  JS.truthy (filterStartDate this) = true ->
  getCourseEvents fromISO fromSQL this now jsonData =
  match getCourseEvents fromISO fromSQL (without_startDate this) now jsonData
  with
  | Ok [] => Ok []
  | Ok (_ :: _) => Throw TypeError
  | Throw _ => Throw TypeError
  end.
Proof.
  intros Ht. rewrite !getCourseEvents_stages, Ht.
  change (JS.truthy (filterStartDate (without_startDate this))) with false.
  change (reservation_to_event fromISO (without_startDate this))
    with (reservation_to_event fromISO this).
  change (semester_stage (without_startDate this) now)
    with (semester_stage this now).
  change (empty_stage (without_startDate this)) with (empty_stage this).
  destruct (JS.get jsonData "reservations") as [rs|[]];
    cbn [bind]; [|reflexivity].
  destruct (JS.call_map rs (reservation_to_event fromISO this))
    as [mapped|[]]; cbn [bind]; [|reflexivity].
  destruct (empty_stage this (semester_stage this now mapped))
    as [[|event kept]|[]]; reflexivity.
Qed.

(** C3, the code at the failing input.  With [filterStartDate] =
    "2024-01-01" and one lecture ending on 2023-12-31, the call throws
    instead of returning the lecture, although the predicate, had it
    been called on the instance, compares the end date with the parsed
    start date. *)
Theorem getCourseEvents_startDate_failing_input (now : DateTime) :
  getCourseEvents fromISO fromSQL api_startDate now
    (feed [reservation_row new_years_eve]) = Throw TypeError
  /\ forall event,
       eventBeforeDate fromSQL (Some api_startDate) event
       = Ok (DateTimeOps.lt (endDate event) (fromSQL "2024-01-01")).
Proof. split; reflexivity. Qed.

(** C10.  The constructor takes each field from the options and falls
    back to [false] for [filterEmpty], [true] for [filterToSemester],
    [false] for [useKTHPlaces]; the dates left out are [null].  An
    instance built from a base URL alone maps every row without location
    URLs and applies the semester filter only. *)
Theorem constructor_defaults (o : Options) (url : string)
    (now : DateTime) (jsonData : JValue) :
  filterEmpty (constructor o)
    = match opt_filterEmpty o with Some b => b | None => false end
  /\ filterToSemester (constructor o)
    = match opt_filterToSemester o with Some b => b | None => true end
  /\ useKTHPlaces (constructor o)
    = match opt_useKTHPlaces o with Some b => b | None => false end
  /\ filterStartDate (constructor o) = opt_startDate o
  /\ filterEndDate (constructor o) = opt_endDate o
  /\ constructor (only_baseUrl url) =
     {| baseUrl := Some url; filterEmpty := false;
        filterStartDate := None; filterEndDate := None;
        filterToSemester := true; useKTHPlaces := false |}
  /\ getCourseEvents fromISO fromSQL (constructor (only_baseUrl url))
       now jsonData =
     (reservations <- JS.get jsonData "reservations" ;;
      mapped <- JS.call_map reservations
                  (reservation_to_event fromISO
                     (constructor (only_baseUrl url))) ;;
      Ok (filter (in_current_period now) mapped)).
Proof.
  repeat split.
  rewrite getCourseEvents_stages.
  destruct (JS.get jsonData "reservations") as [rs|e];
    cbn [bind]; [|reflexivity].
  destruct (JS.call_map rs _) as [mapped|e]; cbn [bind]; [|reflexivity].
  reflexivity.
Qed.

End Pipeline.

(** ** The claims on the sample inputs *)

(** C2 on the sample lecture. *)
Lemma reservation_to_event_valid_witness :
  is_reservation (reservation_row new_years_eve) new_years_eve
  /\ reservation_to_event sample_fromISO api_filterEmpty
       (reservation_row new_years_eve)
     = Ok {| startDate :=
               Valid {| ts := 1704016800000; c_year := 2023; c_month := 12 |};
             endDate :=
               Valid {| ts := 1704024000000; c_year := 2023; c_month := 12 |};
             lecturers := ["A B"; "C D"];
             location := ["Room1"];
             type := JStr "Lecture" |}.
Proof.
  assert (H : is_reservation (reservation_row new_years_eve) new_years_eve).
  { repeat split; reflexivity. }
  split; [exact H|].
  exact (proj1 (reservation_to_event_valid sample_fromISO api_filterEmpty
                  (reservation_row new_years_eve) new_years_eve
                  "A B, C D" "Room1" H eq_refl eq_refl)).
Defined.

(** C5 on the sample row without lecturers. *)
Lemma empty_lecturers_column_kept_witness :
  dates_convert (reservation_row no_lecturer) = true
  /\ exists event,
       reservation_to_event sample_fromISO api_filterEmpty
         (reservation_row no_lecturer) = Ok event
       /\ lecturers event = [""]
       /\ List.length (lecturers event) = 1%nat
       /\ (List.length (lecturers event) =? 0)%nat = false
       /\ (forall that, filterEmptyEvents that event = type_not_empty event)
       /\ (forall that s5,
             type event = JStr s5 ->
             filterEmptyEvents that event = Ok (negb (String.eqb s5 ""))).
Proof.
  split; [reflexivity|].
  exact (empty_lecturers_column_kept sample_fromISO api_filterEmpty
           (reservation_row no_lecturer) (JArr (columns no_lecturer))
           "Room1" eq_refl eq_refl eq_refl eq_refl).
Defined.

Example empty_lecturers_row_passes_filter :
  getCourseEvents sample_fromISO sample_fromSQL api_filterEmpty march_2024
    (feed [reservation_row no_lecturer])
  = Ok [{| startDate :=
             Valid {| ts := 1712743200000; c_year := 2024; c_month := 4 |};
           endDate :=
             Valid {| ts := 1712750400000; c_year := 2024; c_month := 4 |};
           lecturers := [""];
           location := ["Room1"];
           type := JStr "Lecture" |}].
Proof. reflexivity. Qed.

(** C8, the claim as stated fails: a row whose columns stop at position 4
    lacks position 5, yet the call throws under no parsers and no clock
    reading; with the sample parsers in March 2024 it returns the event,
    its type [undefined], even through the empty-field filter. *)
Lemma getCourseEvents_accepts_five_columns :
  List.length (columns five_columns) = 5%nat
  /\ ~ (exists (fromISO fromSQL : string -> DateTime) (now : DateTime),
          getCourseEvents fromISO fromSQL api_filterEmpty now
            (feed [reservation_row five_columns]) = Throw TypeError)
  /\ getCourseEvents sample_fromISO sample_fromSQL api_filterEmpty march_2024
       (feed [reservation_row five_columns])
     = Ok [{| startDate :=
                Valid {| ts := 1712743200000; c_year := 2024; c_month := 4 |};
              endDate :=
                Valid {| ts := 1712750400000; c_year := 2024; c_month := 4 |};
              lecturers := ["A B"];
              location := ["Room1"];
              type := JUndefined |}].
Proof.
  split; [reflexivity|]. split; [|reflexivity].
  intros (fromISO & fromSQL & now & H).
  rewrite getCourseEvents_stages in H. cbn in H.
  destruct (in_current_period now _) in H; cbn in H; discriminate.
Qed.

(** C9 on the sample lecture: one event reaches the start-date filter. *)
Lemma getCourseEvents_startDate_throws_witness :
  JS.truthy (filterStartDate api_startDate) = true
  /\ getCourseEvents sample_fromISO sample_fromSQL api_startDate march_2024
       (feed [reservation_row new_years_eve]) = Throw TypeError.
Proof.
  split; [reflexivity|].
  exact (getCourseEvents_startDate_throws sample_fromISO sample_fromSQL
           api_startDate march_2024 (feed [reservation_row new_years_eve])
           eq_refl).
Defined.

(** C9, the claim as stated fails: with [filterStartDate] set and a body
    without rows, the predicate is never called and the call returns the
    empty list, under all parsers and clock readings. *)
Lemma getCourseEvents_startDate_empty_feed :
  JS.truthy (filterStartDate api_startDate) = true
  /\ ~ (exists (fromISO fromSQL : string -> DateTime) (now : DateTime),
          getCourseEvents fromISO fromSQL api_startDate now (feed [])
          = Throw TypeError)
  /\ getCourseEvents sample_fromISO sample_fromSQL api_startDate march_2024
       (feed []) = Ok [].
Proof.
  split; [reflexivity|]. split; [|reflexivity].
  intros (fromISO & fromSQL & now & H). discriminate.
Qed.

(** The same with rows in the body: in July the semester filter lets
    nothing through, and the start-date filter has nothing to test. *)
Example startDate_after_empty_semester :
  getCourseEvents sample_fromISO sample_fromSQL
    (constructor
       {| opt_baseUrl := Some KTH_public; opt_filterEmpty := None;
          opt_filterToSemester := None; opt_startDate := Some "2024-01-01";
          opt_endDate := None; opt_useKTHPlaces := None |})
    july_2024 (feed [reservation_row new_years_eve]) = Ok [].
Proof. reflexivity. Qed.

(** What the start-date predicate would decide on the sample lecture. *)
Example sample_lecture_ends_before_start_date :
  DateTimeOps.lt (sample_fromISO "2023-12-31T12:00")
                 (sample_fromSQL "2024-01-01") = true.
Proof. reflexivity. Qed.

Example missing_reservations_throws :
  getCourseEvents sample_fromISO sample_fromSQL api_filterEmpty march_2024
    (JObj [("info", JNull)]) = Throw TypeError.
Proof. reflexivity. Qed.

Example four_columns_throw :
  getCourseEvents sample_fromISO sample_fromSQL api_filterEmpty march_2024
    (feed [reservation_row no_lecturer;
           JObj [("startdate", JStr "2024-04-10");
                 ("columns", JArr [JStr ""; JStr ""; JStr ""; JStr "A"])]])
  = Throw TypeError.
Proof. reflexivity. Qed.


(** * Further properties *)

(** ** Strings *)

Lemma append_nil_r (s : string) : s ++ "" = s.
Proof. induction s as [|c r IH]; simpl; congruence. Qed.

Lemma append_assoc (a b c : string) : (a ++ b) ++ c = a ++ b ++ c.
Proof. induction a as [|x r IH]; simpl; congruence. Qed.

Lemma length_append (a b : string) :
  String.length (a ++ b) = (String.length a + String.length b)%nat.
Proof. induction a as [|x r IH]; simpl; congruence. Qed.

Lemma append_cancel_l (a x y : string) : a ++ x = a ++ y -> x = y.
Proof.
  induction a as [|c r IH]; simpl; intros H; [exact H|].
  injection H as H. now apply IH.
Qed.

Lemma append_cancel_r (b x y : string) : x ++ b = y ++ b -> x = y.
Proof.
  revert y. induction x as [|c r IH]; intros [|d y'] H; simpl in H.
  - reflexivity.
  - apply (f_equal String.length) in H. simpl in H.
    rewrite length_append in H. lia.
  - apply (f_equal String.length) in H. simpl in H.
    rewrite length_append in H. lia.
  - injection H as -> H. f_equal. now apply IH.
Qed.

Lemma prefix_nil (s : string) : prefix "" s = true.
Proof. now destruct s. Qed.

Lemma prefix_cons (a : ascii) (p : string) (b : ascii) (s : string) :
  prefix (String a p) (String b s) = Ascii.eqb a b && prefix p s.
Proof.
  cbn [prefix]. destruct (ascii_dec a b) as [e|n].
  - subst. now rewrite Ascii.eqb_refl.
  - apply Ascii.eqb_neq in n. now rewrite n.
Qed.

Lemma prefix_split (p s : string) :
  prefix p s = true -> exists r, s = p ++ r.
Proof.
  revert s. induction p as [|a p IH]; intros s H.
  - now exists s.
  - destruct s as [|b s]; [discriminate|].
    rewrite prefix_cons in H. apply andb_true_iff in H. destruct H as [E H].
    apply Ascii.eqb_eq in E. subst b.
    destruct (IH s H) as [r ->]. now exists r.
Qed.

Lemma prefix_append (p s t : string) :
  prefix p s = true -> prefix p (s ++ t) = true.
Proof.
  revert s. induction p as [|a p IH]; intros s H.
  - apply prefix_nil.
  - destruct s as [|b s]; [discriminate|].
    change (String b s ++ t) with (String b (s ++ t)).
    rewrite prefix_cons in *. apply andb_true_iff in H. destruct H as [E H].
    now rewrite E, (IH s H).
Qed.

Lemma split_from_skip (sep t r cur : string) :
  JSString.split_from sep (String.length t) cur (t ++ r)
  = JSString.split_from sep 0 cur r.
Proof. induction t as [|c t IH]; [reflexivity | exact IH]. Qed.

Lemma split_from_cons (sep : string) (c : ascii) (r cur : string) :
  JSString.split_from sep 0 cur (String c r) =
  if prefix sep (String c r)
  then cur :: JSString.split_from sep (String.length sep - 1) "" r
  else JSString.split_from sep 0 (cur ++ String c "") r.
Proof. reflexivity. Qed.

Lemma split_from_match (sep : string) (c : ascii) (r cur : string) :
  sep <> "" ->
  prefix sep (String c r) = true ->
  exists r',
    String c r = sep ++ r'
    /\ (String.length r' < String.length (String c r))%nat
    /\ JSString.split_from sep 0 cur (String c r)
       = cur :: JSString.split_from sep 0 "" r'.
Proof.
  intros Hsep Hp. destruct (prefix_split _ _ Hp) as [r' E].
  exists r'. split; [exact E|].
  destruct sep as [|a sep']; [congruence|].
  simpl in E. injection E as <- ->. split.
  - simpl. rewrite length_append. lia.
  - rewrite split_from_cons, Hp.
    replace (String.length (String c sep') - 1)%nat
      with (String.length sep') by (simpl; lia).
    now rewrite split_from_skip.
Qed.

Lemma concat_cons (sep x : string) (l : list string) :
  l <> [] -> String.concat sep (x :: l) = x ++ sep ++ String.concat sep l.
Proof. destruct l; [congruence | reflexivity]. Qed.

Lemma concat_split_from (sep : string) (n : nat) :
  sep <> "" ->
  forall s cur,
    (String.length s <= n)%nat ->
    String.concat sep (JSString.split_from sep 0 cur s) = cur ++ s.
Proof.
  intros Hsep. induction n as [|n IH]; intros s cur Hlen.
  - destruct s; [|simpl in Hlen; lia]. simpl. now rewrite append_nil_r.
  - destruct s as [|c r]; [simpl; now rewrite append_nil_r|].
    destruct (prefix sep (String c r)) eqn:Hp.
    + destruct (split_from_match sep c r cur Hsep Hp) as (r' & E & Hlt & ->).
      rewrite concat_cons by apply split_from_not_nil.
      rewrite IH by (simpl in *; lia). now rewrite E.
    + rewrite split_from_cons, Hp, IH by (simpl in *; lia).
      now rewrite append_assoc.
Qed.

Lemma concat_split (sep s : string) :
  sep <> "" -> String.concat sep (JSString.split sep s) = s.
Proof.
  intros H. unfold JSString.split.
  now rewrite (concat_split_from sep (String.length s) H s "" (le_n _)).
Qed.

Lemma starts_within_snoc (pat cur : string) (c : ascii) (r : string) :
  starts_within pat (cur ++ String c "") r
  = starts_within pat cur (String c r) || prefix pat (String c r).
Proof.
  induction cur as [|a cur IH]; simpl starts_within.
  - now rewrite orb_false_r.
  - rewrite IH, orb_assoc. do 2 f_equal.
    change (String a (cur ++ String c "") ++ r)
      with (String a ((cur ++ String c "") ++ r)).
    now rewrite append_assoc.
Qed.

Lemma starts_within_end (pat cur s : string) :
  pat <> "" ->
  starts_within pat cur s = false -> JSString.includes pat cur = false.
Proof.
  intros Hpat. induction cur as [|a cur IH]; intros H.
  - destruct pat; [congruence | reflexivity].
  - simpl in H. apply orb_false_iff in H. destruct H as [H1 H2].
    change (JSString.includes pat (String a cur))
      with (if prefix pat (String a cur) then true
            else JSString.includes pat cur).
    destruct (prefix pat (String a cur)) eqn:Hp.
    + apply (prefix_append _ _ s) in Hp. simpl in Hp. congruence.
    + now apply IH.
Qed.

Lemma split_from_clean (sep : string) (n : nat) :
  sep <> "" ->
  forall s cur,
    (String.length s <= n)%nat ->
    starts_within sep cur s = false ->
    Forall (fun piece => JSString.includes sep piece = false)
           (JSString.split_from sep 0 cur s).
Proof.
  intros Hsep. induction n as [|n IH]; intros s cur Hlen Hcur.
  - destruct s; [|simpl in Hlen; lia].
    constructor; [|constructor]. now apply (starts_within_end sep cur "").
  - destruct s as [|c r].
    + constructor; [|constructor]. now apply (starts_within_end sep cur "").
    + destruct (prefix sep (String c r)) eqn:Hp.
      * destruct (split_from_match sep c r cur Hsep Hp)
          as (r' & E & Hlt & ->).
        constructor.
        -- now apply (starts_within_end sep cur (String c r)).
        -- apply IH; [simpl in *; lia | reflexivity].
      * rewrite split_from_cons, Hp. apply IH; [simpl in *; lia|].
        now rewrite starts_within_snoc, Hcur, Hp.
Qed.

Lemma split_clean (sep s : string) :
  sep <> "" ->
  Forall (fun piece => JSString.includes sep piece = false)
         (JSString.split sep s).
Proof.
  intros H. unfold JSString.split.
  now apply (split_from_clean sep (String.length s) H s "" (le_n _)).
Qed.

(** ** The mapping of a row, continued *)

Section Mapping.

Variable fromISO : string -> DateTime.

Lemma reservation_to_event_ok_inv (this : TimeEditAPI) (row : JValue)
    (event : Event) :
  reservation_to_event fromISO this row = Ok event ->
  exists cols s3 s4,
    JS.get row "columns" = Ok cols
    /\ JS.index cols 3 = Ok (JStr s3)
    /\ JS.index cols 4 = Ok (JStr s4)
    /\ lecturers event = JSString.split ", " s3
    /\ location event =
       (if useKTHPlaces this
        then getKTHLocationURL (JSString.split ", " s4)
        else JSString.split ", " s4).
Proof.
  unfold reservation_to_event.
  destruct (JS.get row "startdate") as [v1|]; cbn [bind]; [|discriminate].
  destruct (JS.template v1) as [t1|]; cbn [bind]; [|discriminate].
  destruct (JS.get row "starttime") as [v2|]; cbn [bind]; [|discriminate].
  destruct (JS.template v2) as [t2|]; cbn [bind]; [|discriminate].
  destruct (JS.get row "enddate") as [v3|]; cbn [bind]; [|discriminate].
  destruct (JS.template v3) as [t3|]; cbn [bind]; [|discriminate].
  destruct (JS.get row "endtime") as [v4|]; cbn [bind]; [|discriminate].
  destruct (JS.template v4) as [t4|]; cbn [bind]; [|discriminate].
  destruct (JS.get row "columns") as [cols|]; cbn [bind]; [|discriminate].
  destruct (JS.index cols 3) as [c3|] eqn:E3; cbn [bind]; [|discriminate].
  destruct c3 as [| | | |s3| |]; cbn [JS.call_split bind]; try discriminate.
  destruct (JS.index cols 4) as [c4|] eqn:E4; cbn [bind]; [|discriminate].
  destruct c4 as [| | | |s4| |]; cbn [JS.call_split bind]; try discriminate.
  destruct (JS.index cols 5) as [c5|]; cbn [bind]; [|discriminate].
  intros H. injection H as <-. exists cols, s3, s4. cbn. auto.
Qed.

Lemma comma_space_not_empty : ", " <> "".
Proof. discriminate. Qed.

(** X1.  No mapped event has an empty lecturers or location sequence, so
    on the events of the pipeline the empty-field filter answers what its
    last check, the comparison of the type with the empty string,
    answers: it throws when that comparison throws, and otherwise keeps
    the event exactly when the comparison is false. *)
Theorem mapped_event_never_empty (this : TimeEditAPI) (row : JValue)
    (event : Event) :
  reservation_to_event fromISO this row = Ok event ->
  lecturers event <> []
  /\ location event <> []
  /\ (forall that, filterEmptyEvents that event = type_not_empty event)
  /\ (forall that,
        filterEmptyEvents that event =
        if JS.converts (type event)
        then Ok (negb (JS.eq_empty_string (type event)))
        else Throw TypeError).
Proof.
  intros H.
  destruct (reservation_to_event_ok_inv this row event H)
    as (cols & s3 & s4 & _ & _ & _ & Hl & Ho).
  assert (Hlec : lecturers event <> []).
  { rewrite Hl. apply split_not_nil. }
  assert (Hloc : location event <> []).
  { rewrite Ho. destruct (useKTHPlaces this); [|apply split_not_nil].
    intros E. apply (f_equal (@List.length string)) in E.
    rewrite getKTHLocationURL_length in E.
    destruct (JSString.split ", " s4) eqn:Es; [|discriminate].
    now apply (split_not_nil ", " s4). }
  assert (Hv : forall that,
            filterEmptyEvents that event = type_not_empty event).
  { intros that. rewrite filterEmptyEvents_value.
    destruct (lecturers event); [congruence|].
    destruct (location event); [congruence|]. reflexivity. }
  repeat split; try assumption.
  intros that. rewrite Hv. unfold type_not_empty, JS.equals_empty_string.
  now destruct (JS.converts (type event)).
Qed.

(** X2.  The mapping loses nothing of columns 3 and 4: the lecturers of a
    mapped event joined by ", " are column 3, and, unless the location is
    resolved to URLs, the location joined by ", " is column 4. *)
Theorem mapped_event_joins_back (this : TimeEditAPI) (row : JValue)
    (event : Event) :
  reservation_to_event fromISO this row = Ok event ->
  exists cols,
    JS.get row "columns" = Ok cols
    /\ JS.index cols 3 = Ok (JStr (String.concat ", " (lecturers event)))
    /\ (useKTHPlaces this = false ->
        JS.index cols 4 = Ok (JStr (String.concat ", " (location event)))).
Proof.
  intros H.
  destruct (reservation_to_event_ok_inv this row event H)
    as (cols & s3 & s4 & Hc & H3 & H4 & Hl & Ho).
  exists cols. split; [exact Hc|]. split.
  - now rewrite Hl, concat_split by apply comma_space_not_empty.
  - intros Hp. rewrite Hp in Ho.
    now rewrite Ho, concat_split by apply comma_space_not_empty.
Qed.

(** X3.  No lecturer of a mapped event contains the separator ", ", and,
    unless the location is resolved to URLs, no location does. *)
Theorem mapped_event_names_clean (this : TimeEditAPI) (row : JValue)
    (event : Event) :
  reservation_to_event fromISO this row = Ok event ->
  Forall (fun name => JSString.includes ", " name = false) (lecturers event)
  /\ (useKTHPlaces this = false ->
      Forall (fun place => JSString.includes ", " place = false)
             (location event)).
Proof.
  intros H.
  destruct (reservation_to_event_ok_inv this row event H)
    as (cols & s3 & s4 & _ & _ & _ & Hl & Ho).
  split.
  - rewrite Hl. apply split_clean, comma_space_not_empty.
  - intros Hp. rewrite Ho, Hp. apply split_clean, comma_space_not_empty.
Qed.

(** Resolving the location of a row is resolving the location of its
    event. *)
Lemma reservation_to_event_places (this : TimeEditAPI) (row : JValue) :
  reservation_to_event fromISO (with_useKTHPlaces true this) row
  = map_result resolved
      (reservation_to_event fromISO (with_useKTHPlaces false this) row).
Proof.
  unfold reservation_to_event.
  destruct (JS.get row "startdate") as [v1|]; cbn [bind]; [|reflexivity].
  destruct (JS.template v1) as [t1|]; cbn [bind]; [|reflexivity].
  destruct (JS.get row "starttime") as [v2|]; cbn [bind]; [|reflexivity].
  destruct (JS.template v2) as [t2|]; cbn [bind]; [|reflexivity].
  destruct (JS.get row "enddate") as [v3|]; cbn [bind]; [|reflexivity].
  destruct (JS.template v3) as [t3|]; cbn [bind]; [|reflexivity].
  destruct (JS.get row "endtime") as [v4|]; cbn [bind]; [|reflexivity].
  destruct (JS.template v4) as [t4|]; cbn [bind]; [|reflexivity].
  destruct (JS.get row "columns") as [cols|]; cbn [bind]; [|reflexivity].
  destruct (JS.index cols 3) as [c3|]; cbn [bind]; [|reflexivity].
  destruct (JS.call_split c3 ", ") as [l3|]; cbn [bind]; [|reflexivity].
  destruct (JS.index cols 4) as [c4|]; cbn [bind]; [|reflexivity].
  destruct (JS.call_split c4 ", ") as [l4|]; cbn [bind]; [|reflexivity].
  destruct (JS.index cols 5) as [c5|]; cbn [bind]; reflexivity.
Qed.

End Mapping.

(** ** The pipeline, continued *)

Lemma map_list_map_result {A B C : Type} (f : B -> C) (g : A -> Result B)
    (l : list A) :
  JS.map_list (fun x => map_result f (g x)) l
  = map_result (map f) (JS.map_list g l).
Proof.
  induction l as [|x r IH]; [reflexivity|].
  cbn [JS.map_list]. rewrite IH.
  destruct (g x) as [y|e]; cbn [map_result bind]; [|reflexivity].
  now destruct (JS.map_list g r).
Qed.

Lemma map_list_ext {A B : Type} (f g : A -> Result B) (l : list A) :
  (forall x, f x = g x) -> JS.map_list f l = JS.map_list g l.
Proof.
  intros H. induction l as [|x r IH]; [reflexivity|].
  cbn [JS.map_list]. now rewrite H, IH.
Qed.

Lemma filter_map_commute {A : Type} (f : A -> A) (p q : A -> bool)
    (l : list A) :
  (forall x, p (f x) = q x) -> filter p (map f l) = map f (filter q l).
Proof.
  intros H. induction l as [|x r IH]; [reflexivity|].
  simpl. rewrite H, IH. now destruct (q x).
Qed.

Lemma filter_list_map {A : Type} (f : A -> A) (p q : A -> Result bool)
    (l : list A) :
  (forall x, p (f x) = q x) ->
  JS.filter_list p (map f l) = map_result (map f) (JS.filter_list q l).
Proof.
  intros H. induction l as [|x r IH]; [reflexivity|].
  cbn [map JS.filter_list]. rewrite H, IH.
  destruct (q x) as [b|e]; cbn [bind map_result]; [|reflexivity].
  destruct (JS.filter_list q r) as [ys|e]; cbn [bind map_result];
    [|reflexivity].
  now destruct b.
Qed.

Lemma semester_stage_resolved (this : TimeEditAPI) (now : DateTime)
    (l : list Event) :
  semester_stage (with_useKTHPlaces true this) now (map resolved l)
  = map resolved (semester_stage (with_useKTHPlaces false this) now l).
Proof.
  unfold semester_stage. cbn [filterToSemester with_useKTHPlaces].
  destruct (filterToSemester this); [|reflexivity].
  now apply filter_map_commute.
Qed.

Lemma filterEmptyEvents_resolved (that : option TimeEditAPI) (event : Event) :
  filterEmptyEvents that (resolved event) = filterEmptyEvents that event.
Proof.
  rewrite !filterEmptyEvents_value. unfold type_not_empty.
  cbn [resolved lecturers location type].
  now rewrite getKTHLocationURL_length.
Qed.

Lemma empty_stage_resolved (this : TimeEditAPI) (l : list Event) :
  empty_stage (with_useKTHPlaces true this) (map resolved l)
  = map_result (map resolved)
      (empty_stage (with_useKTHPlaces false this) l).
Proof.
  unfold empty_stage, Array_filter. cbn [filterEmpty with_useKTHPlaces].
  destruct (filterEmpty this); [|reflexivity].
  apply filter_list_map. apply filterEmptyEvents_resolved.
Qed.

Lemma july_never_in_period (now : DateTime) (event : Event) :
  DateTimeOps.month (startDate event) = Some 7 ->
  in_current_period now event = false.
Proof.
  intros H. unfold in_current_period. rewrite H.
  apply andb_false_iff. left.
  destruct (JS.array_includes (currentSemester now) (Some 7)) eqn:E;
    [|reflexivity].
  apply includes_In, currentSemester_In in E.
  destruct E as (mn & _ & [[_ Hin] | [_ Hin]]); simpl in Hin;
    repeat (destruct Hin as [Hin | Hin]; [discriminate|]); destruct Hin.
Qed.

Section PipelineMore.

Variable fromISO : string -> DateTime.
Variable fromSQL : string -> DateTime.

(** X4.  With the three filter switches off the call is the mapping of
    the rows: it returns one event per row, in the order of the rows. *)
Theorem getCourseEvents_unfiltered (this : TimeEditAPI) (now : DateTime)
    (jsonData : JValue) :
  filterToSemester this = false ->
  filterEmpty this = false ->
  JS.truthy (filterStartDate this) = false ->
  getCourseEvents fromISO fromSQL this now jsonData
  = (reservations <- JS.get jsonData "reservations" ;;
     JS.call_map reservations (reservation_to_event fromISO this))
  /\ forall rows events,
       JS.get jsonData "reservations" = Ok (JArr rows) ->
       getCourseEvents fromISO fromSQL this now jsonData = Ok events ->
       Forall2
         (fun row event => reservation_to_event fromISO this row = Ok event)
         rows events
       /\ List.length events = List.length rows.
Proof.
  intros Hs He Hd.
  assert (E : getCourseEvents fromISO fromSQL this now jsonData
              = (reservations <- JS.get jsonData "reservations" ;;
                 JS.call_map reservations (reservation_to_event fromISO this))).
  { rewrite getCourseEvents_stages, Hd.
    destruct (JS.get jsonData "reservations") as [rs|e];
      cbn [bind]; [|reflexivity].
    destruct (JS.call_map rs _) as [mapped|e]; cbn [bind]; [|reflexivity].
    unfold empty_stage, semester_stage. now rewrite Hs, He. }
  split; [exact E|].
  intros rows events Hr Hok. rewrite E, Hr in Hok.
  cbn [bind JS.call_map] in Hok. apply map_list_ok in Hok.
  split; [exact Hok|]. symmetry. now apply (Forall2_length Hok).
Qed.

Lemma getCourseEvents_ok_passes (this : TimeEditAPI) (now : DateTime)
    (jsonData : JValue) (events : list Event) :
  getCourseEvents fromISO fromSQL this now jsonData = Ok events ->
  forall event, In event events ->
    (filterToSemester this = true -> in_current_period now event = true)
    /\ (filterEmpty this = true ->
        filterEmptyEvents None event = Ok true).
Proof.
  rewrite getCourseEvents_stages.
  destruct (JS.get jsonData "reservations") as [rs|e];
    cbn [bind]; [|discriminate].
  destruct (JS.call_map rs _) as [mapped|e]; cbn [bind]; [|discriminate].
  destruct (empty_stage this (semester_stage this now mapped))
    as [kept|e] eqn:Es; cbn [bind]; [|discriminate].
  intros H event Hev.
  assert (Hk : In event kept).
  { destruct (JS.truthy (filterStartDate this)).
    - destruct kept; [|discriminate]. injection H as <-. destruct Hev.
    - now injection H as <-. }
  destruct (empty_stage_ok this _ kept Es) as (keep & Hkept & Hempty).
  split.
  - intros Hs. rewrite Hkept in Hk. apply filter_In in Hk.
    destruct Hk as [Hk _]. unfold semester_stage in Hk. rewrite Hs in Hk.
    now apply filter_In in Hk.
  - now apply Hempty.
Qed.

(** X5.  Every event returned passed each filter that is switched on. *)
Theorem getCourseEvents_sound (this : TimeEditAPI) (now : DateTime)
    (jsonData : JValue) (events : list Event) :
  getCourseEvents fromISO fromSQL this now jsonData = Ok events ->
  Forall
    (fun event =>
       (filterToSemester this = true ->
        eventInCurrentKTHPeriod now None event = Ok true)
       /\ (filterEmpty this = true ->
           filterEmptyEvents None event = Ok true))
    events.
Proof.
  intros H.
  pose proof (getCourseEvents_ok_passes this now jsonData events H) as Hin.
  apply Forall_forall. intros event Hev.
  destruct (Hin event Hev) as [H1 H2]. split; intros Hon.
  - unfold eventInCurrentKTHPeriod. fold (in_current_period now event).
    now rewrite (H1 Hon).
  - now apply H2.
Qed.

(** X6.  A body whose [reservations] array is empty gives the empty list
    under every configuration and clock reading. *)
Theorem getCourseEvents_no_rows (this : TimeEditAPI) (now : DateTime)
    (jsonData : JValue) :
  JS.get jsonData "reservations" = Ok (JArr []) ->
  getCourseEvents fromISO fromSQL this now jsonData = Ok [].
Proof.
  intros H. rewrite getCourseEvents_stages, H. cbn [bind JS.call_map JS.map_list].
  unfold empty_stage, semester_stage, Array_filter.
  destruct (filterToSemester this), (filterEmpty this);
    cbn [filter JS.filter_list bind];
    now destruct (JS.truthy (filterStartDate this)).
Qed.

(** X7.  With the semester filter on and the clock in January or July,
    every body whose rows map gives the empty list, also when
    [filterStartDate] is set. *)
Theorem getCourseEvents_january_july (this : TimeEditAPI) (now : DateTime)
    (jsonData : JValue) (rows : list JValue) (mapped : list Event) :
  filterToSemester this = true ->
  DateTimeOps.month now = Some 1 \/ DateTimeOps.month now = Some 7 ->
  JS.get jsonData "reservations" = Ok (JArr rows) ->
  JS.map_list (reservation_to_event fromISO this) rows = Ok mapped ->
  getCourseEvents fromISO fromSQL this now jsonData = Ok [].
Proof.
  intros Hs Hm Hr Hmap.
  rewrite getCourseEvents_stages, Hr. cbn [bind JS.call_map].
  rewrite Hmap. cbn [bind].
  assert (E : semester_stage this now mapped = []).
  { unfold semester_stage. rewrite Hs.
    assert (Hp : forall event, in_current_period now event = false).
    { intros event. unfold in_current_period.
      assert (Ec : currentSemester now = []).
      { unfold currentSemester. destruct Hm as [-> | ->]; reflexivity. }
      rewrite Ec. now destruct (DateTimeOps.month (startDate event)). }
    clear Hmap. induction mapped as [|x r IH]; [reflexivity|].
    simpl. now rewrite Hp. }
  rewrite E. unfold empty_stage, Array_filter.
  destruct (filterEmpty this); cbn [JS.filter_list bind];
    now destruct (JS.truthy (filterStartDate this)).
Qed.

(** X8.  With the semester filter on, no event starting in July is ever
    returned, whatever the clock reading. *)
Theorem getCourseEvents_never_july (this : TimeEditAPI) (now : DateTime)
    (jsonData : JValue) (events : list Event) :
  filterToSemester this = true ->
  getCourseEvents fromISO fromSQL this now jsonData = Ok events ->
  Forall (fun event => DateTimeOps.month (startDate event) <> Some 7) events.
Proof.
  intros Hs H.
  pose proof (getCourseEvents_ok_passes this now jsonData events H) as Hin.
  apply Forall_forall. intros event Hev Hjuly.
  destruct (Hin event Hev) as [H1 _]. specialize (H1 Hs).
  rewrite (july_never_in_period now event Hjuly) in H1. discriminate.
Qed.

(** X9.  Resolving locations commutes with the pipeline: the call with
    [useKTHPlaces] on returns the events of the call with it off, each
    with its location resolved, and throws exactly when that call
    throws. *)
Theorem getCourseEvents_places_commute (this : TimeEditAPI) (now : DateTime)
    (jsonData : JValue) :
  getCourseEvents fromISO fromSQL (with_useKTHPlaces true this) now jsonData
  = map_result (map resolved)
      (getCourseEvents fromISO fromSQL (with_useKTHPlaces false this)
         now jsonData).
Proof.
  rewrite !getCourseEvents_stages.
  change (filterStartDate (with_useKTHPlaces true this))
    with (filterStartDate this).
  change (filterStartDate (with_useKTHPlaces false this))
    with (filterStartDate this).
  destruct (JS.get jsonData "reservations") as [rs|e];
    cbn [bind map_result]; [|reflexivity].
  destruct rs as [| | | | |rows|]; cbn [JS.call_map bind map_result];
    try reflexivity.
  rewrite (map_list_ext _ _ rows (reservation_to_event_places fromISO this)).
  rewrite map_list_map_result.
  destruct (JS.map_list
              (reservation_to_event fromISO (with_useKTHPlaces false this))
              rows) as [mapped|e]; cbn [bind map_result]; [|reflexivity].
  rewrite semester_stage_resolved, empty_stage_resolved.
  destruct (empty_stage (with_useKTHPlaces false this)
              (semester_stage (with_useKTHPlaces false this) now mapped))
    as [kept|e]; cbn [bind map_result]; [|reflexivity].
  destruct (JS.truthy (filterStartDate this)); [|reflexivity].
  now destruct kept.
Qed.

(** X10.  Called on its instance, [eventBeforeDate] never throws, and it
    answers [true] exactly when the end date is valid, [filterStartDate]
    is a string that parses, and the end date is strictly earlier; a
    [null] or unparsable [filterStartDate] keeps no event. *)
Theorem eventBeforeDate_decides (this : TimeEditAPI) (event : Event) :
  exists keep : bool,
    eventBeforeDate fromSQL (Some this) event = Ok keep
    /\ (keep = true <->
        exists d text limit,
          endDate event = Valid d
          /\ filterStartDate this = Some text
          /\ fromSQL text = Valid limit
          /\ ts d < ts limit).
Proof.
  eexists. split; [reflexivity|].
  unfold DateTimeOps.lt, fromSQL_field. split.
  - destruct (endDate event) as [d|]; [|discriminate].
    destruct (filterStartDate this) as [text|]; [|discriminate].
    destruct (fromSQL text) as [limit|] eqn:E; [|discriminate].
    cbn. intros H. apply Z.ltb_lt in H. now exists d, text, limit.
  - intros (d & text & limit & -> & -> & -> & H). cbn. now apply Z.ltb_lt.
Qed.

(** X11.  Called on its instance, [eventAfterDate] never throws, and it
    answers [true] exactly when the start date is valid, [filterEndDate]
    is a string that parses, and the start date is strictly earlier than
    it; called without an instance it throws. *)
Theorem eventAfterDate_decides (this : TimeEditAPI) (event : Event) :
  eventAfterDate fromSQL None event = Throw TypeError
  /\ exists keep : bool,
       eventAfterDate fromSQL (Some this) event = Ok keep
       /\ (keep = true <->
           exists d text limit,
             startDate event = Valid d
             /\ filterEndDate this = Some text
             /\ fromSQL text = Valid limit
             /\ ts d < ts limit).
Proof.
  split; [reflexivity|].
  eexists. split; [reflexivity|].
  unfold DateTimeOps.lt, fromSQL_field. split.
  - destruct (startDate event) as [d|]; [|discriminate].
    destruct (filterEndDate this) as [text|]; [|discriminate].
    destruct (fromSQL text) as [limit|] eqn:E; [|discriminate].
    cbn. intros H. apply Z.ltb_lt in H. now exists d, text, limit.
  - intros (d & text & limit & -> & -> & -> & H). cbn. now apply Z.ltb_lt.
Qed.

End PipelineMore.

(** ** The URL builders *)

(** X12.  Different course identifiers never give the same reservations
    URL, and different search texts never give the same search URL. *)
Theorem course_urls_distinct (this : TimeEditAPI) (a b : string)
    (type : JValue) :
  (getCourseUrl this (JStr a) = getCourseUrl this (JStr b) -> a = b)
  /\ (getSearchURL this (JStr a) type = getSearchURL this (JStr b) type ->
      a = b).
Proof.
  unfold getCourseUrl, getSearchURL. cbn [JS.to_string]. split; intros H.
  - do 2 apply append_cancel_l in H. now apply append_cancel_r in H.
  - do 2 apply append_cancel_l in H. now apply append_cancel_r in H.
Qed.

(** ** Asynchronous methods *)

Lemma run_and_then {W A B : Type} (env : Env W) (m : Async A)
    (f : A -> Async B) :
  forall w,
    run env (and_then m f) w =
    match settled (run env m w) with
    | Some (Fulfilled a) =>
        mkRun (settled (run env (f a) (world (run env m w))))
              (calls (run env m w)
               ++ calls (run env (f a) (world (run env m w))))%list
              (world (run env (f a) (world (run env m w))))
    | Some (Rejected r) =>
        mkRun (Some (Rejected r)) (calls (run env m w)) (world (run env m w))
    | None => mkRun None (calls (run env m w)) (world (run env m w))
    end.
Proof.
  induction m as [a|r| |url k IH|res k IH|res k IH|entry k IH]; intros w;
    cbn [and_then run].
  - cbn [settled calls world app]. now destruct (run env (f a) w).
  - reflexivity.
  - reflexivity.
  - destruct (on_fetch env url w) as [a w']. rewrite IH.
    cbn [after settled calls world].
    now destruct (settled (run env (k a) w')) as [[x|x]|].
  - destruct (on_text env res w) as [a w']. rewrite IH.
    cbn [after settled calls world].
    now destruct (settled (run env (k a) w')) as [[x|x]|].
  - destruct (on_json env res w) as [a w']. rewrite IH.
    cbn [after settled calls world].
    now destruct (settled (run env (k a) w')) as [[x|x]|].
  - rewrite IH. cbn [after settled calls world].
    now destruct (settled (run env k w)) as [[x|x]|].
Qed.

Ltac ask_environment :=
  match goal with
  | |- context [on_fetch ?e ?u ?w] =>
      destruct (on_fetch e u w) as [[?res|?msg] ?w'] eqn:?
  | |- context [on_text ?e ?r ?w] =>
      destruct (on_text e r w) as [[?text|?msg] ?w'] eqn:?
  | |- context [on_json ?e ?r ?w] =>
      destruct (on_json e r w) as [[?data|?msg] ?w'] eqn:?
  end.

Ltac run_all :=
  repeat (cbn [run after await checked checkStatus settle settled calls
               world fetches logged flat_map app];
          try ask_environment).

Section AsyncProperties.

Variable fromISO : string -> DateTime.
Variable fromSQL : string -> DateTime.
Variable attr_of : string -> string -> string -> option string.

Context {W : Type} (env : Env W).

Lemma getCourseEvents_async_fetches (this : TimeEditAPI) (now : DateTime)
    (courseId : JValue) (w : W) :
  fetches (calls (run env (getCourseEvents_async fromISO fromSQL this now
                             courseId) w))
  = [getCourseUrl this courseId].
Proof.
  unfold getCourseEvents_async, checked, checkStatus. run_all; try reflexivity.
  all: destruct (ok res); run_all; try reflexivity.
  all: destruct (getCourseEvents fromISO fromSQL this now data);
    reflexivity.
Qed.

(** X13.  Whatever the environment answers, [getCourseEvents] makes
    exactly one request, to the reservations URL of the identifier; its
    promise always settles, and never with the [HTTPResponseError] of the
    status check. *)
Theorem getCourseEvents_async_one_request (this : TimeEditAPI)
    (now : DateTime) (courseId : JValue) (w : W) :
  fetches (calls (run env (getCourseEvents_async fromISO fromSQL this now
                             courseId) w))
  = [getCourseUrl this courseId]
  /\ settled (run env (getCourseEvents_async fromISO fromSQL this now
                         courseId) w) <> None
  /\ forall error,
       settled (run env (getCourseEvents_async fromISO fromSQL this now
                           courseId) w)
       <> Some (Rejected (Uncaught error)).
Proof.
  split; [apply getCourseEvents_async_fetches|].
  unfold getCourseEvents_async, checked, checkStatus.
  split; [|intros error]; run_all; try discriminate.
  all: destruct (ok res); run_all; try discriminate.
  all: destruct (getCourseEvents fromISO fromSQL this now data);
    discriminate.
Qed.

(** X14.  On a response with [ok] set the body is read once, as JSON,
    nothing is logged, and the promise settles as the stages of the
    pipeline do on that body. *)
Theorem getCourseEvents_async_ok (this : TimeEditAPI) (now : DateTime)
    (courseId : JValue) (w w1 w2 : W) (res : Response) (jsonData : JValue) :
  on_fetch env (getCourseUrl this courseId) w = (Gave res, w1) ->
  ok res = true ->
  on_json env res w1 = (Gave jsonData, w2) ->
  run env (getCourseEvents_async fromISO fromSQL this now courseId) w
  = {| settled :=
         Some (outcome_of
                 (getCourseEvents fromISO fromSQL this now jsonData));
       calls := [Fetched (getCourseUrl this courseId); JsonRead res];
       world := w2 |}.
Proof.
  intros Hf Hok Hj. unfold getCourseEvents_async, checked, checkStatus.
  cbn [run]. rewrite Hf. cbn [await]. rewrite Hok. cbn [run]. rewrite Hj.
  cbn [await].
  now destruct (getCourseEvents fromISO fromSQL this now jsonData).
Qed.

(** X15.  On a response without [ok] the error and the error body are
    logged and the call goes on to read the same response as JSON: the
    promise settles by the answer to that read, rejected with its error
    when the read fails and otherwise as the stages of the pipeline do on
    the parsed body. *)
Theorem getCourseEvents_async_logs_and_continues (this : TimeEditAPI)
    (now : DateTime) (courseId : JValue) (w w1 w2 : W) (res : Response)
    (errorBody : string) :
  on_fetch env (getCourseUrl this courseId) w = (Gave res, w1) ->
  ok res = false ->
  on_text env res w1 = (Gave errorBody, w2) ->
  run env (getCourseEvents_async fromISO fromSQL this now courseId) w
  = {| settled :=
         Some (match fst (on_json env res w2) with
               | Gave jsonData =>
                   outcome_of
                     (getCourseEvents fromISO fromSQL this now jsonData)
               | Broke msg => Rejected (External msg)
               end);
       calls :=
         [Fetched (getCourseUrl this courseId);
          Logged (LogError
                    {| message :=
                         "HTTP Error Response: "
                         ++ JS.number_to_string (status res) ++ " "
                         ++ statusText res;
                       response := res |});
          TextRead res;
          Logged (LogText ("Error body: " ++ errorBody));
          JsonRead res];
       world := snd (on_json env res w2) |}.
Proof.
  intros Hf Hok Ht. unfold getCourseEvents_async, checked, checkStatus.
  cbn [run]. rewrite Hf. cbn [await]. rewrite Hok.
  cbn [run new_HTTPResponseError response]. rewrite Ht. cbn [await run].
  destruct (on_json env res w2) as [[jsonData|msg] w3]; cbn [await fst snd].
  - now destruct (getCourseEvents fromISO fromSQL this now jsonData).
  - reflexivity.
Qed.

(** X16.  In an environment where a body that has been read as text can
    no longer be read as JSON, a response without [ok] never yields
    events: the promise is rejected. *)
Theorem getCourseEvents_async_single_read (this : TimeEditAPI)
    (now : DateTime) (courseId : JValue) (w w1 : W) (res : Response) :
  (forall r v text v1,
      on_text env r v = (Gave text, v1) ->
      exists msg v2, on_json env r v1 = (Broke msg, v2)) ->
  on_fetch env (getCourseUrl this courseId) w = (Gave res, w1) ->
  ok res = false ->
  exists reason,
    settled (run env (getCourseEvents_async fromISO fromSQL this now
                        courseId) w)
    = Some (Rejected reason).
Proof.
  intros Hone Hf Hok. unfold getCourseEvents_async, checked, checkStatus.
  cbn [run]. rewrite Hf. cbn [await]. rewrite Hok.
  cbn [run new_HTTPResponseError response].
  destruct (on_text env res w1) as [[text|msg] w2] eqn:Ht; cbn [await run].
  - destruct (Hone _ _ _ _ Ht) as (msg & w3 & Hj). rewrite Hj.
    cbn. eauto.
  - cbn. eauto.
Qed.

Lemma parseHTML_fetches (this : TimeEditAPI) (url : string) (w : W) :
  fetches (calls (run env (parseHTML this url) w)) = [url].
Proof.
  unfold parseHTML, checked, checkStatus. run_all; try reflexivity.
  all: destruct (ok res); run_all; reflexivity.
Qed.

Lemma fetches_app (a b : list Call) :
  fetches (a ++ b) = (fetches a ++ fetches b)%list.
Proof. apply flat_map_app. Qed.

Lemma getCourseId_fetches (this : TimeEditAPI) (courseCode : JValue) (w : W) :
  fetches (calls (run env (getCourseId attr_of this courseCode) w))
  = [getSearchURL this courseCode (JNum 5)].
Proof.
  unfold getCourseId. rewrite run_and_then.
  pose proof (parseHTML_fetches this
                (getSearchURL this courseCode (JNum 5)) w) as H.
  destruct (settled (run env (parseHTML this _) w)) as [[doc|r]|];
    cbn [calls run]; [|exact H|exact H].
  now rewrite app_nil_r.
Qed.

(** X17.  [getCourseId] requests the search URL of the course code with
    result type 5; on a response with [ok] set it reads the page once and
    fulfils with the attribute [data-idonly] of the element
    [#objectbasketitemX0], which is [undefined], not an error, when the
    page has no such element. *)
Theorem getCourseId_lookup (this : TimeEditAPI) (courseCode : string)
    (w w1 w2 : W) (res : Response) (page : string) :
  on_fetch env (getSearchURL this (JStr courseCode) (JNum 5)) w
  = (Gave res, w1) ->
  ok res = true ->
  on_text env res w1 = (Gave page, w2) ->
  getSearchURL this (JStr courseCode) (JNum 5)
  = JS.to_string (nullable (baseUrl this))
    ++ "objects.html?max=1&fr=t&partajax=t&im=f&sid=3&search_text="
    ++ courseCode ++ "&types=5"
  /\ run env (getCourseId attr_of this (JStr courseCode)) w
     = {| settled :=
            Some (Fulfilled
                    (attr_of page "#objectbasketitemX0" "data-idonly"));
          calls :=
            [Fetched (getSearchURL this (JStr courseCode) (JNum 5));
             TextRead res];
          world := w2 |}.
Proof.
  intros Hf Hok Ht. split; [reflexivity|].
  unfold getCourseId, parseHTML, checked, checkStatus.
  cbn [and_then run]. rewrite Hf. cbn [await and_then]. rewrite Hok.
  cbn [and_then run]. rewrite Ht. reflexivity.
Qed.

(** X18.  In an environment where a body can be read as text only once,
    [getCourseId] never fulfils on a response without [ok]: the page has
    been used up by the error log. *)
Theorem getCourseId_single_read (this : TimeEditAPI) (courseCode : JValue)
    (w w1 : W) (res : Response) :
  (forall r v text v1,
      on_text env r v = (Gave text, v1) ->
      exists msg v2, on_text env r v1 = (Broke msg, v2)) ->
  on_fetch env (getSearchURL this courseCode (JNum 5)) w = (Gave res, w1) ->
  ok res = false ->
  exists reason,
    settled (run env (getCourseId attr_of this courseCode) w)
    = Some (Rejected reason).
Proof.
  intros Hone Hf Hok. unfold getCourseId, parseHTML, checked, checkStatus.
  cbn [and_then run]. rewrite Hf. cbn [await and_then]. rewrite Hok.
  cbn [and_then run new_HTTPResponseError response].
  destruct (on_text env res w1) as [[text|msg] w2] eqn:Ht;
    cbn [await and_then run].
  - destruct (Hone _ _ _ _ Ht) as (msg & w3 & Ht2). rewrite Ht2.
    cbn. eauto.
  - cbn. eauto.
Qed.

(** X19.  The driver makes the search request first and at most one more
    request, for the reservations of whatever the lookup fulfilled with;
    when the lookup is rejected there is no second request. *)
Theorem fetchCourseEvents_requests (timeEdit : TimeEditAPI) (now : DateTime)
    (courseName : JValue) (w : W) :
  let r := run env (fetchCourseEvents fromISO fromSQL attr_of timeEdit now
                      courseName) w in
  let lookup := run env (getCourseId attr_of timeEdit courseName) w in
  match settled lookup with
  | Some (Fulfilled courseCode) =>
      fetches (calls r)
      = [getSearchURL timeEdit courseName (JNum 5);
         getCourseUrl timeEdit (optional courseCode)]
  | Some (Rejected reason) =>
      fetches (calls r) = [getSearchURL timeEdit courseName (JNum 5)]
      /\ settled r = Some (Rejected reason)
  | None => False
  end.
Proof.
  cbv zeta. unfold fetchCourseEvents. rewrite run_and_then.
  pose proof (getCourseId_fetches timeEdit courseName w) as Hl.
  destruct (settled (run env (getCourseId attr_of timeEdit courseName) w))
    as [[courseCode|reason]|] eqn:Es; cbn [calls settled].
  - now rewrite fetches_app, Hl, getCourseEvents_async_fetches.
  - now split.
  - revert Es. unfold getCourseId. rewrite run_and_then.
    unfold parseHTML, checked, checkStatus. run_all; try discriminate.
    all: destruct (ok res); run_all; discriminate.
Qed.

(** X20.  The driver does not check the identifier: when the search page
    has no result element, the second request goes to the reservations
    URL of [undefined]. *)
Theorem fetchCourseEvents_undefined_id (timeEdit : TimeEditAPI)
    (now : DateTime) (courseName : string) (w w1 w2 : W) (res : Response)
    (page : string) :
  on_fetch env (getSearchURL timeEdit (JStr courseName) (JNum 5)) w
  = (Gave res, w1) ->
  ok res = true ->
  on_text env res w1 = (Gave page, w2) ->
  attr_of page "#objectbasketitemX0" "data-idonly" = None ->
  fetches (calls (run env (fetchCourseEvents fromISO fromSQL attr_of timeEdit
                             now (JStr courseName)) w))
  = [getSearchURL timeEdit (JStr courseName) (JNum 5);
     JS.to_string (nullable (baseUrl timeEdit))
     ++ "ri.json?h=f&sid=3&p=0.m%2C12.n&objects=undefined&ox=0&types=0&fe=0&h2=f"].
Proof.
  intros Hf Hok Ht Hnone. unfold fetchCourseEvents. rewrite run_and_then.
  assert (E : run env (getCourseId attr_of timeEdit (JStr courseName)) w
              = {| settled := Some (Fulfilled None);
                   calls :=
                     [Fetched (getSearchURL timeEdit (JStr courseName)
                                 (JNum 5)); TextRead res];
                   world := w2 |}).
  { unfold getCourseId, parseHTML, checked, checkStatus.
    cbn [and_then run]. rewrite Hf. cbn [await and_then]. rewrite Hok.
    cbn [and_then run]. rewrite Ht. cbn [await and_then run html].
    now rewrite Hnone. }
  rewrite E. cbn [settled calls world].
  rewrite fetches_app, getCourseEvents_async_fetches. reflexivity.
Qed.

(** X21.  [getCourse] of the first version makes its request and then
    stays pending for ever: whatever the environment answers, its promise
    is neither fulfilled nor rejected. *)
Theorem Index_getCourse_never_settles (this : Index.TimeEditAPI)
    (courseId : string) (w : W) :
  settled (run env (Index.getCourse this courseId) w) = None
  /\ calls (run env (Index.getCourse this courseId) w)
     = [Fetched (Index.getCourseUrl this courseId)].
Proof.
  unfold Index.getCourse. cbn [run].
  now destruct (on_fetch env (Index.getCourseUrl this courseId) w).
Qed.

(** X22.  The driver of the first version hands a URL to [getCourse] as
    the course identifier: the one request it makes goes to a URL that
    holds the base URL and the query twice, nested. *)
Theorem Index_fetchCourse_nested_url (baseUrl courseName : string) (w : W) :
  calls (run env (Index.fetchCourse (Index.constructor baseUrl) courseName) w)
  = [Fetched
       (baseUrl ++ "ri.json?h=f&sid=3&p=0.m%2C12.n&objects="
        ++ (baseUrl ++ "ri.json?h=f&sid=3&p=0.m%2C12.n&objects="
            ++ courseName ++ "&ox=0&types=0&fe=0&h2=f")
        ++ "&ox=0&types=0&fe=0&h2=f")].
Proof.
  unfold Index.fetchCourse, Index.getCourse. cbn [run].
  now destruct (on_fetch env _ w).
Qed.

End AsyncProperties.

(** ** [getKTHLocationURL], continued *)

Lemma KTH_search_url_injective (x y : string) :
  KTH_search_url x = KTH_search_url y -> x = y.
Proof.
  unfold KTH_search_url. intros H.
  apply append_cancel_l in H. now apply append_cancel_r in H.
Qed.

(** X23.  On tokens without a section sign the resolver is injective:
    two sequences of such tokens with the same URLs are the same
    sequence. *)
Theorem getKTHLocationURL_injective (a b : list string) :
  Forall (fun token => section_signs token = O) a ->
  Forall (fun token => section_signs token = O) b ->
  getKTHLocationURL a = getKTHLocationURL b ->
  a = b.
Proof.
  rewrite !getKTHLocationURL_map. intros Ha. revert b.
  induction Ha as [|x a Hx Ha IH]; intros b Hb H; destruct Hb as [|y b Hy Hb].
  - reflexivity.
  - discriminate.
  - discriminate.
  - cbn [map] in H.
    pose proof (f_equal (hd "") H) as Hh.
    pose proof (f_equal (@tl string) H) as Ht.
    cbn [hd tl] in Hh, Ht.
    apply KTH_search_url_injective in Hh.
    rewrite !remove_first_absent in Hh by assumption.
    subst y. f_equal. now apply IH.
Qed.

(** ** The further properties on the sample inputs *)

(** X1 on the sample lecture. *)
Lemma mapped_event_never_empty_witness :
  reservation_to_event sample_fromISO api_filterEmpty
    (reservation_row new_years_eve) = Ok new_years_eve_event
  /\ lecturers new_years_eve_event <> []
  /\ location new_years_eve_event <> []
  /\ (forall that,
        filterEmptyEvents that new_years_eve_event
        = type_not_empty new_years_eve_event)
  /\ (forall that,
        filterEmptyEvents that new_years_eve_event =
        if JS.converts (type new_years_eve_event)
        then Ok (negb (JS.eq_empty_string (type new_years_eve_event)))
        else Throw TypeError).
Proof.
  split; [reflexivity|].
  exact (mapped_event_never_empty sample_fromISO api_filterEmpty
           (reservation_row new_years_eve) new_years_eve_event eq_refl).
Defined.

(** X2 on the sample lecture. *)
Lemma mapped_event_joins_back_witness :
  reservation_to_event sample_fromISO api_filterEmpty
    (reservation_row new_years_eve) = Ok new_years_eve_event
  /\ exists cols,
       JS.get (reservation_row new_years_eve) "columns" = Ok cols
       /\ JS.index cols 3
          = Ok (JStr (String.concat ", " (lecturers new_years_eve_event)))
       /\ (useKTHPlaces api_filterEmpty = false ->
           JS.index cols 4
           = Ok (JStr (String.concat ", " (location new_years_eve_event)))).
Proof.
  split; [reflexivity|].
  exact (mapped_event_joins_back sample_fromISO api_filterEmpty
           (reservation_row new_years_eve) new_years_eve_event eq_refl).
Defined.

(** X3 on the sample lecture. *)
Lemma mapped_event_names_clean_witness :
  reservation_to_event sample_fromISO api_filterEmpty
    (reservation_row new_years_eve) = Ok new_years_eve_event
  /\ Forall (fun name => JSString.includes ", " name = false)
       (lecturers new_years_eve_event)
  /\ (useKTHPlaces api_filterEmpty = false ->
      Forall (fun place => JSString.includes ", " place = false)
             (location new_years_eve_event)).
Proof.
  split; [reflexivity|].
  exact (mapped_event_names_clean sample_fromISO api_filterEmpty
           (reservation_row new_years_eve) new_years_eve_event eq_refl).
Defined.

(** X4 on the two sample rows. *)
Lemma getCourseEvents_unfiltered_witness :
  getCourseEvents sample_fromISO sample_fromSQL api_plain july_2024 two_rows
  = Ok [new_years_eve_event; no_lecturer_event]
  /\ List.length [new_years_eve_event; no_lecturer_event] = 2%nat.
Proof.
  split; [reflexivity|].
  exact (proj2 (proj2 (getCourseEvents_unfiltered sample_fromISO
                         sample_fromSQL api_plain july_2024 two_rows
                         eq_refl eq_refl eq_refl)
                  [reservation_row new_years_eve; reservation_row no_lecturer]
                  [new_years_eve_event; no_lecturer_event]
                  eq_refl eq_refl)).
Defined.

(** X5 on the two sample rows in March 2024: the April row is kept. *)
Lemma getCourseEvents_sound_witness :
  getCourseEvents sample_fromISO sample_fromSQL api_filterEmpty march_2024
    two_rows = Ok [no_lecturer_event]
  /\ Forall
       (fun event =>
          (filterToSemester api_filterEmpty = true ->
           eventInCurrentKTHPeriod march_2024 None event = Ok true)
          /\ (filterEmpty api_filterEmpty = true ->
              filterEmptyEvents None event = Ok true))
       [no_lecturer_event].
Proof.
  split; [reflexivity|].
  exact (getCourseEvents_sound sample_fromISO sample_fromSQL api_filterEmpty
           march_2024 two_rows [no_lecturer_event] eq_refl).
Defined.

(** X6 on the empty feed. *)
Lemma getCourseEvents_no_rows_witness :
  getCourseEvents sample_fromISO sample_fromSQL api_startDate march_2024
    (feed []) = Ok [].
Proof.
  exact (getCourseEvents_no_rows sample_fromISO sample_fromSQL api_startDate
           march_2024 (feed []) eq_refl).
Defined.

(** X7 on the two sample rows in July 2024. *)
Lemma getCourseEvents_january_july_witness :
  DateTimeOps.month july_2024 = Some 7
  /\ getCourseEvents sample_fromISO sample_fromSQL api_filterEmpty july_2024
       two_rows = Ok [].
Proof.
  split; [reflexivity|].
  exact (getCourseEvents_january_july sample_fromISO sample_fromSQL
           api_filterEmpty july_2024 two_rows
           [reservation_row new_years_eve; reservation_row no_lecturer]
           [new_years_eve_event; no_lecturer_event]
           eq_refl (or_intror eq_refl) eq_refl eq_refl).
Defined.

(** X8 on the two sample rows in March 2024. *)
Lemma getCourseEvents_never_july_witness :
  Forall (fun event => DateTimeOps.month (startDate event) <> Some 7)
         [no_lecturer_event].
Proof.
  exact (getCourseEvents_never_july sample_fromISO sample_fromSQL
           api_filterEmpty march_2024 two_rows [no_lecturer_event]
           eq_refl eq_refl).
Defined.

(** X14 on a server answering 200. *)
Lemma getCourseEvents_async_ok_witness :
  run (replay ok_200 "" two_rows)
      (getCourseEvents_async sample_fromISO sample_fromSQL api_plain
         july_2024 (JStr "12345")) tt
  = {| settled := Some (Fulfilled [new_years_eve_event; no_lecturer_event]);
       calls := [Fetched DD2482_url; JsonRead ok_200];
       world := tt |}.
Proof.
  exact (getCourseEvents_async_ok sample_fromISO sample_fromSQL
           (replay ok_200 "" two_rows) api_plain july_2024 (JStr "12345")
           tt tt tt ok_200 two_rows eq_refl eq_refl eq_refl).
Defined.

(** X15 on a server answering 404 whose body is a stream. *)
Lemma getCourseEvents_async_logs_and_continues_witness :
  run (one_shot not_found_404 "gone" two_rows)
      (getCourseEvents_async sample_fromISO sample_fromSQL api_plain
         july_2024 (JStr "12345")) false
  = {| settled := Some (Rejected (External "body used already"));
       calls :=
         [Fetched DD2482_url;
          Logged (LogError
                    {| message := "HTTP Error Response: 404 Not Found";
                       response := not_found_404 |});
          TextRead not_found_404;
          Logged (LogText "Error body: gone");
          JsonRead not_found_404];
       world := true |}.
Proof.
  exact (getCourseEvents_async_logs_and_continues sample_fromISO
           sample_fromSQL (one_shot not_found_404 "gone" two_rows)
           api_plain july_2024 (JStr "12345") false false true
           not_found_404 "gone" eq_refl eq_refl eq_refl).
Defined.

Lemma one_shot_text_then_json (res : Response) (body : string)
    (parsed : JValue) :
  forall r v text v1,
    on_text (one_shot res body parsed) r v = (Gave text, v1) ->
    exists msg v2, on_json (one_shot res body parsed) r v1 = (Broke msg, v2).
Proof.
  intros r v text v1 H. destruct v; cbn in H; [discriminate|].
  injection H as _ <-. cbn. eauto.
Defined.

Lemma one_shot_text_twice (res : Response) (body : string)
    (parsed : JValue) :
  forall r v text v1,
    on_text (one_shot res body parsed) r v = (Gave text, v1) ->
    exists msg v2, on_text (one_shot res body parsed) r v1 = (Broke msg, v2).
Proof.
  intros r v text v1 H. destruct v; cbn in H; [discriminate|].
  injection H as _ <-. cbn. eauto.
Defined.

(** X16 on a server answering 404 whose body is a stream. *)
Lemma getCourseEvents_async_single_read_witness :
  exists reason,
    settled (run (one_shot not_found_404 "gone" two_rows)
               (getCourseEvents_async sample_fromISO sample_fromSQL api_plain
                  july_2024 (JStr "12345")) false)
    = Some (Rejected reason).
Proof.
  exact (getCourseEvents_async_single_read sample_fromISO sample_fromSQL
           (one_shot not_found_404 "gone" two_rows) api_plain july_2024
           (JStr "12345") false false not_found_404
           (one_shot_text_then_json not_found_404 "gone" two_rows)
           eq_refl eq_refl).
Defined.

(** X17 on a search page with a result. *)
Lemma getCourseId_lookup_witness :
  run (replay ok_200 "<div>" JNull)
      (getCourseId sample_attr_of api_plain (JStr "DD2482")) tt
  = {| settled := Some (Fulfilled (Some "12345"));
       calls := [Fetched DD2482_search; TextRead ok_200];
       world := tt |}.
Proof.
  exact (proj2 (getCourseId_lookup sample_attr_of
                  (replay ok_200 "<div>" JNull) api_plain "DD2482"
                  tt tt tt ok_200 "<div>" eq_refl eq_refl eq_refl)).
Defined.

(** X18 on a server answering 404 whose body is a stream. *)
Lemma getCourseId_single_read_witness :
  exists reason,
    settled (run (one_shot not_found_404 "gone" JNull)
               (getCourseId sample_attr_of api_plain (JStr "DD2482")) false)
    = Some (Rejected reason).
Proof.
  exact (getCourseId_single_read sample_attr_of
           (one_shot not_found_404 "gone" JNull) api_plain (JStr "DD2482")
           false false not_found_404
           (one_shot_text_twice not_found_404 "gone" JNull)
           eq_refl eq_refl).
Defined.

(** X20 on an empty search page. *)
Lemma fetchCourseEvents_undefined_id_witness :
  fetches (calls (run (replay ok_200 "" two_rows)
                    (fetchCourseEvents sample_fromISO sample_fromSQL
                       sample_attr_of api_plain july_2024 (JStr "DD2482")) tt))
  = [DD2482_search;
     "https://cloud.timeedit.net/kth/web/public01/ri.json?h=f&sid=3&p=0.m%2C12.n&objects=undefined&ox=0&types=0&fe=0&h2=f"].
Proof.
  exact (fetchCourseEvents_undefined_id sample_fromISO sample_fromSQL
           sample_attr_of (replay ok_200 "" two_rows) api_plain
           july_2024 "DD2482" tt tt tt ok_200 "" eq_refl eq_refl eq_refl
           eq_refl).
Defined.

(** X23 on two rooms. *)
Lemma getKTHLocationURL_injective_witness :
  getKTHLocationURL ["Room1"; "Q2"] = getKTHLocationURL ["Room1"; "Q2"]
  /\ ["Room1"; "Q2"] = ["Room1"; "Q2"].
Proof.
  split; [reflexivity|].
  apply (getKTHLocationURL_injective ["Room1"; "Q2"] ["Room1"; "Q2"]).
  - repeat constructor.
  - repeat constructor.
  - reflexivity.
Defined.

(** ** Values without a conversion to a string *)

Example template_no_conversion :
  JS.template no_conversion = Throw TypeError
  /\ JS.template (JArr [JNull; no_conversion]) = Throw TypeError
  /\ JS.template (JObj [("valueOf", JNum 1)]) = Ok "[object Object]"
  /\ JS.template (JArr [JNull; JObj []; JNum 2]) = Ok ",[object Object],2".
Proof. repeat split. Qed.

Example odd_date_row_throws :
  dates_convert odd_date_row = false
  /\ reservation_to_event sample_fromISO api_plain odd_date_row
     = Throw TypeError
  /\ getCourseEvents sample_fromISO sample_fromSQL api_plain march_2024
       (feed [reservation_row new_years_eve; odd_date_row])
     = Throw TypeError.
Proof. repeat split. Qed.

Example odd_type_throws :
  filterEmptyEvents None
    (mkEvent Invalid Invalid ["A"] ["Room1"] no_conversion)
  = Throw TypeError
  /\ filterEmptyEvents None
       (mkEvent Invalid Invalid [] ["Room1"] no_conversion)
     = Ok false.
Proof. repeat split. Qed.
